(** * Kluster patch test: a shallow embedding of [HSTB/kluster/modules/patch.py]

    The development follows the Python class [PatchTest] method by method.
    Python values are modelled as follows.

    - Floating point numbers are an abstract carrier [F] with the operations the
      module uses (class [Float]); every theorem holds for any implementation of
      them.  Module [Float64] gives the IEEE binary64 implementation on Rocq's
      primitive floats, which the concrete runs use.
    - A one-dimensional numpy array is a list, a two-dimensional one a list of
      rows (C order).
    - A Python [dict] is an association list in insertion order.
    - A method of [PatchTest] is a function from the object and the lines printed
      so far to either a raised exception or the updated object and lines. *)

From Stdlib Require Import String Ascii Bool Arith Lia ZArith.
From Stdlib Require Import PrimFloat FloatOps SpecFloat Uint63.
From Stdlib Require Import List.
Import ListNotations.

Set Implicit Arguments.

(** ** Python: exceptions, printing, dictionaries, slices *)

Module Py.

Inductive exn : Type :=
| ValueError (msg : string)
| AttributeError
| TypeError
| IndexError
| KeyError (key : string)
| LinAlgError (msg : string).

Inductive outcome (A : Type) : Type :=
| Ok (a : A)
| Raise (e : exn).

Arguments Ok {A} a.
Arguments Raise {A} e.

(** A printed line: plain text, or a label followed by a list of floats,
    as ['roll: {}'.format([x for x in row])] prints it (the floats are kept as
    values, their decimal rendering is not modelled). *)
Inductive line (F : Type) : Type :=
| Text (s : string)
| Values (label : string) (v : list F).

Arguments Text {F} s.
Arguments Values {F} label v.

(** A statement sequence that may print lines and may raise. *)
Definition M (F A : Type) : Type := list (line F) -> outcome (A * list (line F)).

Definition ret {F A} (a : A) : M F A := fun out => Ok (a, out).

Definition raise {F A} (e : exn) : M F A := fun _ => Raise e.

Definition bind {F A B} (m : M F A) (k : A -> M F B) : M F B :=
  fun out =>
    match m out with
    | Ok (a, out') => k a out'
    | Raise e => Raise e
    end.

Definition print {F} (l : line F) : M F unit := fun out => Ok (tt, out ++ [l]).

(** An expression that may raise, used inside a statement sequence. *)
Definition lift {F A} (r : outcome A) : M F A :=
  fun out => match r with Ok a => Ok (a, out) | Raise e => Raise e end.

(** [d] as a dictionary: keys in insertion order, one binding per key. *)
Definition dict (K V : Type) : Type := list (K * V).

Definition keys {K V} (d : dict K V) : list K := map fst d.

Fixpoint get {V} (d : dict string V) (k : string) : option V :=
  match d with
  | [] => None
  | (k', v) :: d' => if String.eqb k' k then Some v else get d' k
  end.

(** [d[k] = v]: an existing key keeps its place, a new one goes last. *)
Fixpoint set {V} (d : dict string V) (k : string) (v : V) : dict string V :=
  match d with
  | [] => [(k, v)]
  | (k', v') :: d' =>
      if String.eqb k' k then (k', v) :: d' else (k', v') :: set d' k v
  end.

(** [k in d.keys()] *)
Definition contains {V} (d : dict string V) (k : string) : bool :=
  existsb (String.eqb k) (keys d).

(** [l[i]] for a non-negative index. *)
Definition index {A} (l : list A) (i : nat) : outcome A :=
  match nth_error l i with
  | Some a => Ok a
  | None => Raise IndexError
  end.

(** [l[a:b]] for non-negative bounds. *)
Definition slice {A} (l : list A) (a b : nat) : list A := skipn a (firstn b l).

(** [repr] of a list of strings that hold no quote and no backslash:
    ['a', 'b']. *)
Fixpoint join (sep : string) (l : list string) : string :=
  match l with
  | [] => EmptyString
  | [s] => s
  | s :: l' => (s ++ sep ++ join sep l')%string
  end.

Definition repr_str (s : string) : string := ("'" ++ s ++ "'")%string.

Definition repr_list (l : list string) : string :=
  ("[" ++ join ", " (map repr_str l) ++ "]")%string.

End Py.

Import Py.

Declare Scope py_scope.
Delimit Scope py_scope with py.
Notation "x <- m ;; k" := (bind m (fun x => k))
  (at level 61, m at next level, right associativity) : py_scope.
Notation "m ;;; k" := (bind m (fun _ => k))
  (at level 61, right associativity) : py_scope.

(** ** Numbers *)

(** The arithmetic [patch.py] performs on numpy scalars. *)
Class Float (F : Type) : Type := {
  (** the literal [n/d], for instance [90] as [lit 90 1], [0.01] as [lit 1 100] *)
  lit : Z -> positive -> F;
  fadd : F -> F -> F;
  fsub : F -> F -> F;
  fmul : F -> F -> F;
  fdiv : F -> F -> F;
  cos : F -> F;
  sin : F -> F;
  deg2rad : F -> F;
  (** [np.isnan] *)
  isnan : F -> bool;
  (** the truth value of a scalar, [x != 0] *)
  nonzero : F -> bool;
  (** one step of the reduction [ndarray.min] *)
  minimum : F -> F -> F;
  (** the number of elements of [np.arange(start, stop, step)] *)
  arange_len : F -> F -> F -> nat
}.

(** ** numpy arrays *)

Module Np.
Section Arrays.

Context {F : Type} {FF : Float F}.

Definition of_nat (n : nat) : F := lit (Z.of_nat n) 1.

Fixpoint map2 {A B C} (f : A -> B -> C) (a : list A) (b : list B) : list C :=
  match a, b with
  | x :: a', y :: b' => f x y :: map2 f a' b'
  | _, _ => []
  end.

(** Two arrays of rows have the same shape. *)
Fixpoint same_shape {A B} (a : list (list A)) (b : list (list B)) : bool :=
  match a, b with
  | [], [] => true
  | r :: a', s :: b' => Nat.eqb (length r) (length s) && same_shape a' b'
  | _, _ => false
  end.

Definition ravel {A} (a : list (list A)) : list A := concat a.

(** [a[m]] on flat arrays of one length. *)
Fixpoint compress {A} (m : list bool) (a : list A) : list A :=
  match m, a with
  | b :: m', v :: a' => if b then v :: compress m' a' else compress m' a'
  | _, _ => []
  end.

(** [a[m]] for a boolean mask [m]: the entries of [a] where [m] holds, in
    C order; numpy raises IndexError when the mask has another shape. *)
Definition mask_index {A} (a : list (list A)) (m : list (list bool)) : outcome (list A) :=
  if same_shape a m then Ok (compress (ravel m) (ravel a)) else Raise IndexError.

(** [~np.isnan(a)] *)
Definition not_isnan (a : list (list F)) : list (list bool) :=
  map (map (fun v => negb (isnan v))) a.

(** [np.logical_and(a, b)] on arrays of one shape.  For other shapes numpy
    broadcasts when it can and raises ValueError otherwise; the layers of one
    grid share a shape, so only the error is kept here. *)
Definition logical_and (a b : list (list bool)) : outcome (list (list bool)) :=
  if same_shape a b then Ok (map2 (map2 andb) a b)
  else Raise (ValueError "operands could not be broadcast together").

(** [m.any()] for a boolean array. *)
Definition any (m : list (list bool)) : bool := existsb (fun b => b) (ravel m).

(** [a.any()] for a flat array of floats. *)
Definition any_nonzero (a : list F) : bool := existsb nonzero a.

(** [a.min()] *)
Definition min (a : list F) : outcome F :=
  match a with
  | [] => Raise (ValueError "zero-size array to reduction operation minimum which has no identity")
  | v :: a' => Ok (fold_left minimum a' v)
  end.

(** [np.arange(start, stop, step)]: element [i] is [start + i*step]. *)
Definition arange (start stop step : F) : list F :=
  map (fun i => fadd start (fmul (of_nat i) step)) (seq 0 (arange_len start stop step)).

(** [np.meshgrid(xv, yv)] with the default indexing 'xy': both results have
    [len(yv)] rows and [len(xv)] columns, the first repeats [xv] in every row,
    the second holds [yv[r]] all along row [r]. *)
Definition meshgrid (xv yv : list F) : list (list F) * list (list F) :=
  (map (fun _ => xv) yv, map (fun yr => map (fun _ => yr) xv) yv).

(** Put a column in front of the rows of a matrix. *)
Fixpoint cons_col {A} (c : list A) (rows : list (list A)) : list (list A) :=
  match c, rows with
  | v :: c', r :: rows' => (v :: r) :: cons_col c' rows'
  | _, _ => []
  end.

(** The matrix of [n] rows whose columns are [cols]. *)
Definition of_columns {A} (n : nat) (cols : list (list A)) : list (list A) :=
  fold_right cons_col (repeat [] n) cols.

(** [np.column_stack(cols)] for flat arrays: ValueError unless they share a
    length. *)
Definition column_stack {A} (cols : list (list A)) : outcome (list (list A)) :=
  match cols with
  | [] => Raise (ValueError "need at least one array to concatenate")
  | c :: _ =>
      if forallb (fun c' => Nat.eqb (length c') (length c)) cols
      then Ok (of_columns (length c) cols)
      else Raise (ValueError "all the input array dimensions except for the concatenation axis must match exactly")
  end.

(** [a.T] for a matrix with at least one row. *)
Definition T {A} (a : list (list A)) : list (list A) :=
  of_columns (length (hd [] a)) a.

Definition sum (a : list F) : F := fold_left fadd a (of_nat 0).

(** [np.dot(a, b)] for conformant matrices. *)
Definition dot (a b : list (list F)) : list (list F) :=
  map (fun r => map (fun c => sum (map2 fmul r c)) (T b)) a.

End Arrays.
End Np.

(** ** The data the patch test works on *)

(** One entry of the structured array [points], dtype
    [('x', float64), ('y', float64), ('z', float32)]; also one row of the
    dataset the data source returns for a line. *)
Record Sounding (F : Type) : Type := { sx : F; sy : F; sz : F }.

(** The processed ping record, as far as [patch.py] reads it:
    [fqpr.multibeam.raw_ping[0].multibeam_files.keys()] and
    [fqpr.subset_variables_by_line(['x', 'y', 'z'], line, filter_by_detection=True)[line]]. *)
Module Fqpr.
Record t (F : Type) : Type := {
  multibeam_files : list string;
  subset_variables_by_line : string -> list (Sounding F)
}.
End Fqpr.

(** A bathygrid grid, as far as [patch.py] reads it. *)
Module Grid.
Record t (F : Type) : Type := {
  min_x : F;
  max_x : F;
  min_y : F;
  max_y : F;
  resolutions : list F;
  layers : string -> list (list F)
}.

Definition get_layers_by_name {F} (g : t F) (names : list string) : list (list (list F)) :=
  map (layers g) names.
End Grid.

(** [bathygrid.convenience.create_grid] and the two methods called on its
    result; the gridding itself is outside this repository. *)
Class Bathygrid (F : Type) : Type := {
  create_grid : Grid.t F;
  add_points : Grid.t F -> list (Sounding F) -> string -> list string -> Grid.t F;
  grid_points : Grid.t F -> Grid.t F
}.

(** [np.linalg.lstsq(a, b, rcond=None)]: solution, residuals, rank and
    singular values when it returns.  numpy raises LinAlgError when the
    matrices do not fit or when the decomposition does not converge, as it
    may with entries that are NaN or infinite. *)
Class Linalg (F : Type) : Type := {
  lstsq : list (list F) -> list (list F) ->
          outcome (list (list F) * list F * nat * list F)
}.

(** The constants imported from [HSTB.kluster.kluster_variables]. *)
Class KlusterVariables (F : Type) : Type := {
  default_roll_error : F;
  default_pitch_error : F;
  default_heading_error : F;
  default_x_offset_error : F;
  default_y_offset_error : F
}.

(** The attributes of a [PatchTest] object. *)
Record PatchTest (F : Type) : Type := {
  fqpr : option (Fqpr.t F);
  azimuth : option F;
  initial_parameters : dict string F;
  multibeam_files : option (list string);
  multibeam_indexes : option (dict string (nat * nat));
  points : option (list (Sounding F));
  min_x : option F;
  min_y : option F;
  grid : option (Grid.t F);
  a_matrix : option (list (list F));
  b_matrix : option (list (list F));
  result : option (list (list F))
}.

(** ** The class [PatchTest] *)

Section PatchTestMethods.

Context {F : Type} {FF : Float F}.
Context {KV : KlusterVariables F} {BG : Bathygrid F} {LA : Linalg F}.

Local Open Scope py_scope.
Local Open Scope string_scope.
Local Open Scope list_scope.

Definition _default_parameters : dict string F :=
  [("roll", lit 0 1); ("roll_unc", default_roll_error);
   ("pitch", lit 0 1); ("pitch_unc", default_pitch_error);
   ("heading", lit 0 1); ("heading_unc", default_heading_error);
   ("x_unc", default_x_offset_error); ("y_unc", default_y_offset_error);
   ("h_scale_unc", lit 1 100)].

(** [[x for x in self._default_parameters.keys() if x not in initial_parameters.keys()]] *)
Definition missing_keys (initial_parameters : dict string F) : list string :=
  filter (fun x => negb (contains initial_parameters x)) (keys _default_parameters).

(** [PatchTest.__init__] *)
Definition __init__ (fqpr : option (Fqpr.t F)) (azimuth : option F)
    (initial_parameters : option (dict string F)) : outcome (PatchTest F) :=
  let new params :=
    {| fqpr := fqpr; azimuth := azimuth; initial_parameters := params;
       multibeam_files := None; multibeam_indexes := None; points := None;
       min_x := None; min_y := None; grid := None;
       a_matrix := None; b_matrix := None; result := None |} in
  match initial_parameters with
  | None => Ok (new _default_parameters)
  | Some given =>
      match missing_keys given with
      | [] => Ok (new given)
      | _ :: _ =>
          Raise (ValueError
            ("The following keys are not in the provided parameters dict, they must be included: "
               ++ repr_list (missing_keys given)))
      end
  end.

(** Attribute assignments. *)
Definition set_lines (files : list string) (indexes : dict string (nat * nat))
    (self : PatchTest F) : PatchTest F :=
  {| fqpr := fqpr self; azimuth := azimuth self;
     initial_parameters := initial_parameters self;
     multibeam_files := Some files; multibeam_indexes := Some indexes;
     points := points self; min_x := min_x self; min_y := min_y self;
     grid := grid self; a_matrix := a_matrix self; b_matrix := b_matrix self;
     result := result self |}.

Definition set_points (pts : list (Sounding F)) (mx my : F)
    (self : PatchTest F) : PatchTest F :=
  {| fqpr := fqpr self; azimuth := azimuth self;
     initial_parameters := initial_parameters self;
     multibeam_files := multibeam_files self;
     multibeam_indexes := multibeam_indexes self;
     points := Some pts; min_x := Some mx; min_y := Some my;
     grid := grid self; a_matrix := a_matrix self; b_matrix := b_matrix self;
     result := result self |}.

Definition set_grid (g : Grid.t F) (self : PatchTest F) : PatchTest F :=
  {| fqpr := fqpr self; azimuth := azimuth self;
     initial_parameters := initial_parameters self;
     multibeam_files := multibeam_files self;
     multibeam_indexes := multibeam_indexes self;
     points := points self; min_x := min_x self; min_y := min_y self;
     grid := Some g; a_matrix := a_matrix self; b_matrix := b_matrix self;
     result := result self |}.

Definition set_matrices (a b : list (list F)) (self : PatchTest F) : PatchTest F :=
  {| fqpr := fqpr self; azimuth := azimuth self;
     initial_parameters := initial_parameters self;
     multibeam_files := multibeam_files self;
     multibeam_indexes := multibeam_indexes self;
     points := points self; min_x := min_x self; min_y := min_y self;
     grid := grid self; a_matrix := Some a; b_matrix := Some b;
     result := result self |}.

Definition set_result (r : list (list F)) (self : PatchTest F) : PatchTest F :=
  {| fqpr := fqpr self; azimuth := azimuth self;
     initial_parameters := initial_parameters self;
     multibeam_files := multibeam_files self;
     multibeam_indexes := multibeam_indexes self;
     points := points self; min_x := min_x self; min_y := min_y self;
     grid := grid self; a_matrix := a_matrix self; b_matrix := b_matrix self;
     result := Some r |}.

(** *** [_generate_rotated_points] *)

(** The local variables of the loop over the lines: the concatenated columns
    ([finalx], [finaly], [finalz], all [None] before the first line), the
    dictionary being filled and [curr_point_index]. *)
Definition collected : Type :=
  option (list F * list F * list F) * dict string (nat * nat) * nat.

(** One iteration of [for mfilename in self.multibeam_files.keys()]. *)
Definition collect_line (fq : Fqpr.t F) (acc : collected) (mfilename : string) : collected :=
  let '(final, indexes, curr_point_index) := acc in
  let data := Fqpr.subset_variables_by_line fq mfilename in
  let x := map (@sx F) data in
  let y := map (@sy F) data in
  let z := map (@sz F) data in
  let indexes := Py.set indexes mfilename (curr_point_index, curr_point_index + length x) in
  let curr_point_index := length x in
  match final with
  | None => (Some (x, y, z), indexes, curr_point_index)
  | Some (finalx, finaly, finalz) =>
      (Some (finalx ++ x, finaly ++ y, finalz ++ z), indexes, curr_point_index)
  end.

Definition collect_lines (fq : Fqpr.t F) (files : list string) : collected :=
  fold_left (collect_line fq) files (None, [], 0).

(** [np.empty(len(finalx), dtype=dtyp)] followed by the assignment of the three
    fields. *)
Fixpoint structured (finalx finaly finalz : list F) : list (Sounding F) :=
  match finalx, finaly, finalz with
  | vx :: finalx', vy :: finaly', vz :: finalz' =>
      {| sx := vx; sy := vy; sz := vz |} :: structured finalx' finaly' finalz'
  | _, _, _ => []
  end.

(** [points['x'] = column] and [points['y'] = column] *)
Definition assign_x (pts : list (Sounding F)) (column : list F) : list (Sounding F) :=
  Np.map2 (fun p v => {| sx := v; sy := sy p; sz := sz p |}) pts column.

Definition assign_y (pts : list (Sounding F)) (column : list F) : list (Sounding F) :=
  Np.map2 (fun p v => {| sx := sx p; sy := v; sz := sz p |}) pts column.

Definition _generate_rotated_points (self : PatchTest F) : M F (PatchTest F) :=
  match azimuth self with
  | None => raise TypeError
  | Some az =>
      let ang := fsub az (lit 90 1) in
      let cos_az := cos (deg2rad ang) in
      let sin_az := sin (deg2rad ang) in
      match fqpr self with
      | None => raise AttributeError
      | Some fq =>
          let files := Fqpr.multibeam_files fq in
          let '(final, indexes, _) := collect_lines fq files in
          let self := set_lines files indexes self in
          match final with
          | None => raise AttributeError
          | Some (finalx, finaly, finalz) =>
              if Np.any_nonzero finalx then
                let pts := structured finalx finaly finalz in
                mx <- lift (Np.min (map (@sx F) pts)) ;;
                my <- lift (Np.min (map (@sy F) pts)) ;;
                let centered_x := map (fun v => fsub v mx) (map (@sx F) pts) in
                let centered_y := map (fun v => fsub v my) (map (@sy F) pts) in
                let pts := assign_x pts
                  (Np.map2 (fun cx cy => fsub (fadd mx (fmul cos_az cx)) (fmul sin_az cy))
                     centered_x centered_y) in
                let pts := assign_y pts
                  (Np.map2 (fun cx cy => fadd (fadd my (fmul sin_az cx)) (fmul cos_az cy))
                     centered_x centered_y) in
                ret (set_points pts mx my self)
              else
                print (Text ("Found no valid points for " ++ repr_list files)) ;;;
                ret self
          end
      end
  end.

(** *** [_grid] *)

(** [for linename in self.multibeam_indexes:] with its body, the lookup
    [self.multibeam_indexes[linename]] and the call of [add_points] on the
    slice [self.points[idxs[0]:idxs[1]]]. *)
Fixpoint add_lines (pts : list (Sounding F)) (indexes : dict string (nat * nat))
    (linenames : list string) (grid_class : Grid.t F) : outcome (Grid.t F) :=
  match linenames with
  | [] => Ok grid_class
  | linename :: linenames' =>
      match Py.get indexes linename with
      | None => Raise (KeyError linename)
      | Some idxs =>
          add_lines pts indexes linenames'
            (add_points grid_class (slice pts (fst idxs) (snd idxs)) linename [linename])
      end
  end.

Definition _grid (self : PatchTest F) : M F (PatchTest F) :=
  match points self with
  | Some pts =>
      if Nat.ltb 0 (length pts) then
        match multibeam_indexes self with
        | None => raise TypeError
        | Some indexes =>
            grid_class <- lift (add_lines pts indexes (keys indexes) create_grid) ;;
            ret (set_grid (grid_points grid_class) self)
        end
      else ret self
  | None => ret self
  end.

(** *** [_build_patch_test_values] *)

(** The valid-overlap mask:
    [np.logical_and(~np.isnan(lineone), ~np.isnan(linetwo))]. *)
Definition valid_overlap (lineone linetwo : list (list F)) : outcome (list (list bool)) :=
  Np.logical_and (Np.not_isnan lineone) (Np.not_isnan linetwo).

(** The node locations of the grid:
    [xval], [yval], [grid_rez] and the [np.meshgrid] call. *)
Definition node_locs (g : Grid.t F) : outcome (list (list F) * list (list F)) :=
  match index (Grid.resolutions g) 0 with
  | Raise e => Raise e
  | Ok grid_rez =>
      let xval := Np.arange (Grid.min_x g) (Grid.max_x g) grid_rez in
      let yval := Np.arange (Grid.min_y g) (Grid.max_y g) grid_rez in
      Ok (Np.meshgrid
            (map (fun v => fadd v (fdiv grid_rez (lit 2 1))) xval)
            (map (fun v => fadd v (fdiv grid_rez (lit 2 1))) yval))
  end.

Definition and_then {A B} (r : outcome A) (k : A -> outcome B) : outcome B :=
  match r with
  | Ok a => k a
  | Raise e => Raise e
  end.

(** The body of [if valid_index.any():] down to [l_one_matrix]: the local
    [a_matrix] (the design matrix) and [l_one_matrix] (the observations). *)
Definition patch_test_matrices (g : Grid.t F)
    (dpth xslope yslope lineone linetwo : list (list F))
    (valid_index : list (list bool)) : outcome (list (list F) * list (list F)) :=
  and_then (node_locs g) (fun locs =>
  let '(x_node_locs, y_node_locs) := locs in
  and_then (Np.mask_index dpth valid_index) (fun dpth_valid =>
  and_then (Np.mask_index y_node_locs valid_index) (fun y_node_valid =>
  and_then (Np.mask_index xslope valid_index) (fun xslope_valid =>
  and_then (Np.mask_index yslope valid_index) (fun yslope_valid =>
  and_then (Np.mask_index lineone valid_index) (fun lineone_valid =>
  and_then (Np.mask_index linetwo valid_index) (fun linetwo_valid =>
  and_then (Np.column_stack
              [Np.map2 fsub (Np.map2 fmul yslope_valid dpth_valid) y_node_valid;
               Np.map2 fmul xslope_valid dpth_valid;
               Np.map2 fmul xslope_valid y_node_valid;
               xslope_valid;
               yslope_valid;
               Np.map2 fmul yslope_valid y_node_valid]) (fun a_matrix =>
  and_then (Np.column_stack [lineone_valid; linetwo_valid]) (fun l_one_matrix =>
  Ok (a_matrix, l_one_matrix)))))))))).

Definition _build_patch_test_values (self : PatchTest F) : M F (PatchTest F) :=
  match grid self with
  | None => ret self
  | Some g =>
      match multibeam_indexes self with
      | None => raise AttributeError
      | Some indexes =>
          let line_layers := keys indexes in
          l0 <- lift (index line_layers 0) ;;
          l1 <- lift (index line_layers 1) ;;
          match Grid.get_layers_by_name g ["depth"; "x_slope"; "y_slope"; l0; l1] with
          | [dpth; xslope; yslope; lineone; linetwo] =>
              valid_index <- lift (valid_overlap lineone linetwo) ;;
              if Np.any valid_index then
                ms <- lift (patch_test_matrices g dpth xslope yslope lineone linetwo
                              valid_index) ;;
                let '(a_matrix, l_one_matrix) := ms in
                let a_t := Np.T a_matrix in
                ret (set_matrices (Np.dot a_t a_matrix) (Np.dot a_t l_one_matrix) self)
              else
                match multibeam_files self with
                | None => raise AttributeError
                | Some files =>
                    print (Text ("No valid overlap found for lines: "
                                   ++ repr_list files)) ;;;
                    ret self
                end
          | _ => raise (ValueError "not enough values to unpack")
          end
      end
  end.

(** *** [_compute_least_squares] *)

Definition _compute_least_squares (self : PatchTest F) : M F (PatchTest F) :=
  match a_matrix self, b_matrix self with
  | Some a, Some b =>
      match lstsq a b with
      | Ok (res, residuals, rank, singular) => ret (set_result res self)
      | Raise e => raise e
      end
  | _, _ => ret self
  end.

(** *** [run_patch] *)

Definition run_patch (self : PatchTest F) : M F (PatchTest F) :=
  self <- _generate_rotated_points self ;;
  self <- _grid self ;;
  self <- _build_patch_test_values self ;;
  _compute_least_squares self.

(** *** [display_results] *)

Definition display_results (self : PatchTest F) : M F (PatchTest F) :=
  print (Text "Patch test results") ;;;
  match fqpr self, result self with
  | Some fq, Some res =>
      print (Text ("Lines: " ++ repr_list (Fqpr.multibeam_files fq))) ;;;
      r0 <- lift (index res 0) ;;
      print (Values "roll: " r0) ;;;
      r1 <- lift (index res 1) ;;
      print (Values "pitch: " r1) ;;;
      r2 <- lift (index res 2) ;;
      print (Values "heading: " r2) ;;;
      r3 <- lift (index res 3) ;;
      print (Values "x_translation: " r3) ;;;
      r4 <- lift (index res 4) ;;
      print (Values "y_translation: " r4) ;;;
      r5 <- lift (index res 5) ;;
      print (Values "horizontal scale factor: " r5) ;;;
      ret self
  | _, _ => ret self
  end.

End PatchTestMethods.

(** ** IEEE binary64 numbers, for the concrete runs *)

Module Float64.

Local Open Scope float_scope.

(** An integer below 2^63 in absolute value, as the nearest float. *)
Definition of_Z (n : Z) : float :=
  match n with
  | Z0 => 0
  | Zpos _ => PrimFloat.of_uint63 (Uint63.of_Z n)
  | Zneg p => - PrimFloat.of_uint63 (Uint63.of_Z (Zpos p))
  end.

(** [ceil(v)] as a natural number, 0 for negative [v].  Where [v] is infinite
    or not a number numpy raises; 0 is returned here. *)
Definition ceil_nat (v : float) : nat :=
  match Prim2SF v with
  | S754_finite false m e =>
      match e with
      | Zneg k => Z.to_nat ((Zpos m + 2 ^ Zpos k - 1) / 2 ^ Zpos k)
      | _ => Z.to_nat (Zpos m * 2 ^ e)
      end
  | _ => 0%nat
  end.

(** The double nearest to pi. *)
Definition pi : float := 0x1.921fb54442d18p+1.

(** Rocq has no libm: truncated Maclaurin series stand in for it.  They are
    exact at 0, the only argument at which the concrete runs depend on them. *)
Definition cos_series (t : float) : float :=
  let u := t * t in
  1 - u / 2 * (1 - u / 12 * (1 - u / 30 * (1 - u / 56 * (1 - u / 90 *
    (1 - u / 132 * (1 - u / 182 * (1 - u / 240))))))).

Definition sin_series (t : float) : float :=
  let u := t * t in
  t * (1 - u / 6 * (1 - u / 20 * (1 - u / 42 * (1 - u / 72 * (1 - u / 110 *
    (1 - u / 156 * (1 - u / 210 * (1 - u / 272)))))))).

#[export] Instance float64 : Float float := {|
  lit n d := of_Z n / of_Z (Zpos d);
  fadd := PrimFloat.add;
  fsub := PrimFloat.sub;
  fmul := PrimFloat.mul;
  fdiv := PrimFloat.div;
  cos := cos_series;
  sin := sin_series;
  deg2rad t := t * (pi / 180);
  isnan := PrimFloat.is_nan;
  nonzero v := negb (v =? 0);
  minimum a b :=
    if PrimFloat.is_nan a then a
    else if PrimFloat.is_nan b then b
    else if b <? a then b else a;
  arange_len start stop step := ceil_nat ((stop - start) / step)
|}.

(** Sample values for the constants of [kluster_variables]. *)
#[export] Instance sample_variables : KlusterVariables float := {|
  default_roll_error := 1 / 1000;
  default_pitch_error := 1 / 1000;
  default_heading_error := 2 / 100;
  default_x_offset_error := 2 / 10;
  default_y_offset_error := 2 / 10
|}.

End Float64.

(** ** Sample objects for the concrete runs *)

Module Samples.

Import Float64.
Local Open Scope float_scope.
Local Open Scope string_scope.
Local Open Scope list_scope.

Definition sounding (vx vy vz : float) : Sounding float :=
  {| sx := vx; sy := vy; sz := vz |}.

(** Two lines, three soundings on the first and two on the second. *)
Definition two_lines : Fqpr.t float :=
  {| Fqpr.multibeam_files := ["line_a.all"; "line_b.all"];
     Fqpr.subset_variables_by_line name :=
       if String.eqb name "line_a.all"
       then [sounding 10 20 5; sounding 11 20 6; sounding 12 21 7]
       else if String.eqb name "line_b.all"
       then [sounding 12 20 5; sounding 11 21 6]
       else [] |}.

(** Two lines whose soundings all lie at x = 0. *)
Definition on_the_axis : Fqpr.t float :=
  {| Fqpr.multibeam_files := ["line_a.all"; "line_b.all"];
     Fqpr.subset_variables_by_line name :=
       if String.eqb name "line_a.all"
       then [sounding 0 1 5; sounding 0 3 6]
       else if String.eqb name "line_b.all"
       then [sounding 0 2 5]
       else [] |}.

(** All soundings of a record, in line order. *)
Definition buffer_of (fq : Fqpr.t float) : list (Sounding float) :=
  flat_map (Fqpr.subset_variables_by_line fq) (Fqpr.multibeam_files fq).

(** A mapping with every recognized key but ['heading_unc']. *)
Definition no_heading_unc : dict string float :=
  [("roll", 0); ("roll_unc", 1); ("pitch", 0); ("pitch_unc", 1);
   ("heading", 0); ("x_unc", 1); ("y_unc", 1); ("h_scale_unc", 1)].

(** The object [PatchTest(two_lines, azimuth=90)] right after construction. *)
Definition fresh : PatchTest float :=
  {| fqpr := Some two_lines; azimuth := Some 90;
     initial_parameters := _default_parameters;
     multibeam_files := None; multibeam_indexes := None; points := None;
     min_x := None; min_y := None; grid := None;
     a_matrix := None; b_matrix := None; result := None |}.

(** The object [PatchTest(on_the_axis, azimuth=90)] right after construction. *)
Definition fresh_on_the_axis : PatchTest float :=
  {| fqpr := Some on_the_axis; azimuth := Some 90;
     initial_parameters := _default_parameters;
     multibeam_files := None; multibeam_indexes := None; points := None;
     min_x := None; min_y := None; grid := None;
     a_matrix := None; b_matrix := None; result := None |}.

(** Two lines of which only the first has soundings. *)
Definition second_line_empty : Fqpr.t float :=
  {| Fqpr.multibeam_files := ["line_a.all"; "line_b.all"];
     Fqpr.subset_variables_by_line name :=
       if String.eqb name "line_a.all"
       then [sounding 10 20 5; sounding 11 20 6]
       else [] |}.

Definition fresh_second_line_empty : PatchTest float :=
  {| fqpr := Some second_line_empty; azimuth := Some 90;
     initial_parameters := _default_parameters;
     multibeam_files := None; multibeam_indexes := None; points := None;
     min_x := None; min_y := None; grid := None;
     a_matrix := None; b_matrix := None; result := None |}.

(** A grid of two rows and two columns of unit cells; line_a has no depth at
    index (0, 1), line_b none at index (1, 0). *)
Definition square_grid : Grid.t float :=
  {| Grid.min_x := 0; Grid.max_x := 2; Grid.min_y := 0; Grid.max_y := 2;
     Grid.resolutions := [1];
     Grid.layers name :=
       if String.eqb name "depth" then [[5; 6]; [7; 8]]
       else if String.eqb name "x_slope" then [[1; 2]; [3; 4]]
       else if String.eqb name "y_slope" then [[2; 2]; [2; 2]]
       else if String.eqb name "line_a.all" then [[5; nan]; [7; 9]]
       else if String.eqb name "line_b.all" then [[6; 6]; [nan; 7]]
       else [] |}.

(** The same cells where the lines never meet. *)
Definition disjoint_grid : Grid.t float :=
  {| Grid.min_x := 0; Grid.max_x := 2; Grid.min_y := 0; Grid.max_y := 2;
     Grid.resolutions := [1];
     Grid.layers name :=
       if String.eqb name "depth" then [[5; 6]; [7; 8]]
       else if String.eqb name "x_slope" then [[1; 2]; [3; 4]]
       else if String.eqb name "y_slope" then [[2; 2]; [2; 2]]
       else if String.eqb name "line_a.all" then [[5; 6]; [nan; nan]]
       else if String.eqb name "line_b.all" then [[nan; nan]; [7; 8]]
       else [] |}.

(** A grid two cells long in x and one cell long in y, its layers indexed
    [x index, y index] (two rows of one entry). *)
Definition long_grid : Grid.t float :=
  {| Grid.min_x := 0; Grid.max_x := 2; Grid.min_y := 0; Grid.max_y := 1;
     Grid.resolutions := [1];
     Grid.layers name :=
       if String.eqb name "depth" then [[5]; [6]]
       else if String.eqb name "x_slope" then [[1]; [2]]
       else if String.eqb name "y_slope" then [[2]; [2]]
       else if String.eqb name "line_a.all" then [[5]; [6]]
       else if String.eqb name "line_b.all" then [[5]; [7]]
       else [] |}.

(** The square grid where the lines meet at index (1, 0) only. *)
Definition skew_grid : Grid.t float :=
  {| Grid.min_x := 0; Grid.max_x := 2; Grid.min_y := 0; Grid.max_y := 2;
     Grid.resolutions := [1];
     Grid.layers name :=
       if String.eqb name "depth" then [[5; 6]; [7; 8]]
       else if String.eqb name "x_slope" then [[1; 2]; [3; 4]]
       else if String.eqb name "y_slope" then [[2; 2]; [2; 2]]
       else if String.eqb name "line_a.all" then [[nan; nan]; [7; nan]]
       else if String.eqb name "line_b.all" then [[nan; nan]; [8; nan]]
       else [] |}.

(** The square grid without a depth at index (0, 0), where both lines have
    one. *)
Definition missing_depth_grid : Grid.t float :=
  {| Grid.min_x := 0; Grid.max_x := 2; Grid.min_y := 0; Grid.max_y := 2;
     Grid.resolutions := [1];
     Grid.layers name :=
       if String.eqb name "depth" then [[nan; 6]; [7; 8]]
       else if String.eqb name "x_slope" then [[1; 2]; [3; 4]]
       else if String.eqb name "y_slope" then [[2; 2]; [2; 2]]
       else if String.eqb name "line_a.all" then [[5; nan]; [7; 9]]
       else if String.eqb name "line_b.all" then [[6; 6]; [nan; 7]]
       else [] |}.

(** An object whose grid is built. *)
Definition gridded (g : Grid.t float) : PatchTest float :=
  {| fqpr := Some two_lines; azimuth := Some 90;
     initial_parameters := _default_parameters;
     multibeam_files := Some ["line_a.all"; "line_b.all"];
     multibeam_indexes := Some [("line_a.all", (0, 3)%nat); ("line_b.all", (3, 5)%nat)];
     points := Some (buffer_of two_lines);
     min_x := Some 10; min_y := Some 20; grid := Some g;
     a_matrix := None; b_matrix := None; result := None |}.

Definition zeros (rows cols : nat) : list (list float) := repeat (repeat 0 cols) rows.

(** An object holding normal equations with an entry that is NaN. *)
Definition nan_system : PatchTest float :=
  {| fqpr := Some two_lines; azimuth := Some 90;
     initial_parameters := _default_parameters;
     multibeam_files := Some ["line_a.all"; "line_b.all"];
     multibeam_indexes := Some [("line_a.all", (0, 3)%nat); ("line_b.all", (3, 5)%nat)];
     points := Some (buffer_of two_lines);
     min_x := Some 10; min_y := Some 20; grid := Some missing_depth_grid;
     a_matrix := Some (repeat (repeat nan 6) 6); b_matrix := Some (zeros 6 2);
     result := None |}.

(** An object holding the normal equations of a design matrix of rank 0. *)
Definition zero_system : PatchTest float :=
  {| fqpr := Some two_lines; azimuth := Some 90;
     initial_parameters := _default_parameters;
     multibeam_files := Some ["line_a.all"; "line_b.all"];
     multibeam_indexes := Some [("line_a.all", (0, 3)%nat); ("line_b.all", (3, 5)%nat)];
     points := Some (buffer_of two_lines);
     min_x := Some 10; min_y := Some 20; grid := Some square_grid;
     a_matrix := Some (zeros 6 6); b_matrix := Some (zeros 6 2); result := None |}.

(** A stand-in for bathygrid in the concrete runs: one unit cell, a line's
    layer holds the depth of its first sounding, or nan for a line without
    soundings. *)
#[export] Instance one_cell : Bathygrid float := {|
  create_grid :=
    {| Grid.min_x := 0; Grid.max_x := 1; Grid.min_y := 0; Grid.max_y := 1;
       Grid.resolutions := [1]; Grid.layers := fun _ => [[nan]] |};
  add_points g pts linename tags :=
    {| Grid.min_x := Grid.min_x g; Grid.max_x := Grid.max_x g;
       Grid.min_y := Grid.min_y g; Grid.max_y := Grid.max_y g;
       Grid.resolutions := Grid.resolutions g;
       Grid.layers name :=
         if String.eqb name linename
         then [[match pts with p :: _ => sz p | [] => nan end]]
         else Grid.layers g name |};
  grid_points g := g
|}.

(** Whether an array has an entry that is NaN. *)
Definition has_nan (a : list (list float)) : bool :=
  existsb (existsb PrimFloat.is_nan) a.

(** A stand-in for [np.linalg.lstsq] in the concrete runs.  On a system with
    an entry that is NaN it raises LinAlgError, as numpy does when the
    decomposition does not converge.  Otherwise it answers as numpy does on a
    system whose matrices are zero: the minimum-norm solution is zero, there
    are no residuals, the rank is 0 and so are the singular values. *)
#[export] Instance zero_solver : Linalg float := {|
  lstsq a b :=
    if has_nan a || has_nan b
    then Raise (LinAlgError "SVD did not converge in Linear Least Squares")
    else Ok (map (fun _ => map (fun _ => 0) (hd [] b)) (hd [] a), [], 0%nat,
             map (fun _ => 0) (hd [] a))
|}.

End Samples.

Import Float64.

(** ** Construction *)

Section Construction.

Context {F : Type} {FF : Float F} {KV : KlusterVariables F}.

Local Open Scope string_scope.
Local Open Scope list_scope.

(** The recognized keys, as the interface description lists them. *)
Definition recognized_keys : list string :=
  ["roll"; "roll_unc"; "pitch"; "pitch_unc"; "heading"; "heading_unc";
   "x_unc"; "y_unc"; "h_scale_unc"].

Definition configuration_error (named : list string) : exn :=
  ValueError
    ("The following keys are not in the provided parameters dict, they must be included: "
       ++ repr_list named).

Lemma default_keys : keys (@_default_parameters F FF KV) = recognized_keys.
Proof. reflexivity. Qed.

Lemma contains_In {V} (d : dict string V) (k : string) :
  contains d k = true <-> In k (keys d).
Proof.
  unfold contains. rewrite existsb_exists. split.
  - intros [k' [Hin Heq]]. apply String.eqb_eq in Heq. now subst.
  - intros Hin. exists k. split; [assumption | apply String.eqb_refl].
Qed.

Lemma missing_keys_spec (given : dict string F) (k : string) :
  In k (missing_keys given) <-> In k recognized_keys /\ ~ In k (keys given).
Proof.
  unfold missing_keys. rewrite default_keys, filter_In.
  rewrite negb_true_iff, <- not_true_iff_false, contains_In. reflexivity.
Qed.

Lemma recognized_NoDup : NoDup recognized_keys.
Proof.
  unfold recognized_keys.
  repeat (constructor; [simpl; intuition discriminate | ]). constructor.
Qed.

Lemma missing_keys_NoDup (given : dict string F) : NoDup (missing_keys given).
Proof.
  unfold missing_keys. rewrite default_keys.
  apply NoDup_filter, recognized_NoDup.
Qed.

(** C9.  A mapping that lacks recognized keys makes the constructor raise the
    configuration error whose message lists exactly the recognized keys absent
    from the mapping, each once; a mapping holding every recognized key and the
    absent mapping ([None]) both construct the object. *)
Theorem init_missing_keys (fq : option (Fqpr.t F)) (az : option F) :
  (forall given : dict string F,
      (exists k, In k recognized_keys /\ ~ In k (keys given)) ->
      exists named,
        __init__ fq az (Some given) = Raise (configuration_error named)
        /\ NoDup named
        /\ forall k, In k named <-> In k recognized_keys /\ ~ In k (keys given))
  /\ (forall given : dict string F,
      (forall k, In k recognized_keys -> In k (keys given)) ->
      exists self,
        __init__ fq az (Some given) = Ok self /\ initial_parameters self = given)
  /\ (exists self,
        __init__ fq az None = Ok self
        /\ initial_parameters self = _default_parameters).
Proof.
  split; [ | split].
  - intros given [k Hk]. exists (missing_keys given).
    split; [ | split].
    + unfold __init__. apply missing_keys_spec in Hk.
      destruct (missing_keys given) as [ | k0 ks]; [contradiction | reflexivity].
    + apply missing_keys_NoDup.
    + apply missing_keys_spec.
  - intros given Hall. unfold __init__.
    destruct (missing_keys given) as [ | k0 ks] eqn:E.
    + eexists. split; reflexivity.
    + assert (Hin : In k0 (missing_keys given)) by (rewrite E; now left).
      apply missing_keys_spec in Hin. destruct Hin as [Hr Hn].
      exfalso. apply Hn, Hall, Hr.
  - eexists. split; reflexivity.
Qed.

End Construction.

(** The mapping without ['heading_unc'] is refused, and the error names
    ['heading_unc'] alone. *)
Lemma init_missing_keys_witness :
  exists named,
    __init__ (Some Samples.two_lines) (Some 90%float) (Some Samples.no_heading_unc)
      = Raise (configuration_error named)
    /\ NoDup named
    /\ forall k, In k named <->
         In k recognized_keys /\ ~ In k (keys Samples.no_heading_unc).
Proof.
  apply (proj1 (init_missing_keys (Some Samples.two_lines) (Some 90%float))).
  exists "heading_unc"%string. split.
  - simpl. tauto.
  - simpl. intuition discriminate.
Defined.

Example init_without_heading_unc :
  __init__ (Some Samples.two_lines) (Some 90%float) (Some Samples.no_heading_unc)
  = Raise (ValueError
      "The following keys are not in the provided parameters dict, they must be included: ['heading_unc']").
Proof. reflexivity. Qed.

(** ** The guards between the stages *)

Section Guards.

Context {F : Type} {FF : Float F} {BG : Bathygrid F} {LA : Linalg F}.

Local Open Scope string_scope.
Local Open Scope list_scope.

Ltac unfold_py := unfold bind, ret, raise, print, lift in *.

Lemma grid_guard (self : PatchTest F) (out : list (line F)) :
  points self = None \/ points self = Some [] -> _grid self out = Ok (self, out).
Proof. unfold _grid. intros [-> | ->]; reflexivity. Qed.

Lemma build_guard (self : PatchTest F) (out : list (line F)) :
  grid self = None -> _build_patch_test_values self out = Ok (self, out).
Proof. unfold _build_patch_test_values. intros ->. reflexivity. Qed.

Lemma solve_guard (self : PatchTest F) (out : list (line F)) :
  a_matrix self = None \/ b_matrix self = None ->
  _compute_least_squares self out = Ok (self, out).
Proof.
  unfold _compute_least_squares.
  intros [-> | ->]; [ | destruct (a_matrix self)]; reflexivity.
Qed.

(** What a stage leaves alone. *)
Lemma rotate_keeps (self self' : PatchTest F) (out out' : list (line F)) :
  _generate_rotated_points self out = Ok (self', out') ->
  grid self' = grid self /\ a_matrix self' = a_matrix self
  /\ b_matrix self' = b_matrix self /\ result self' = result self.
Proof.
  unfold _generate_rotated_points.
  destruct (azimuth self) as [az | ]; [ | discriminate].
  destruct (fqpr self) as [fq | ]; [ | discriminate].
  destruct (collect_lines fq (Fqpr.multibeam_files fq)) as [[final indexes] c].
  destruct final as [[[finalx finaly] finalz] | ]; [ | discriminate].
  destruct (Np.any_nonzero finalx).
  - unfold_py.
    destruct (Np.min _) as [mx | e]; [ | discriminate].
    destruct (Np.min _) as [my | e]; [ | discriminate].
    intros H. injection H as <- _. repeat split.
  - unfold_py. intros H. injection H as <- _. repeat split.
Qed.

Lemma build_keeps (self self' : PatchTest F) (out out' : list (line F)) :
  _build_patch_test_values self out = Ok (self', out') ->
  result self' = result self
  /\ (a_matrix self' = None ->
      a_matrix self = None /\ b_matrix self' = b_matrix self).
Proof.
  unfold _build_patch_test_values.
  destruct (grid self) as [g | ].
  2:{ intros H. injection H as <- _. repeat split; assumption. }
  destruct (multibeam_indexes self) as [indexes | ]; [ | discriminate].
  unfold_py.
  destruct (index (keys indexes) 0) as [l0 | e]; [ | discriminate].
  destruct (index (keys indexes) 1) as [l1 | e]; [ | discriminate].
  cbn [Grid.get_layers_by_name map].
  destruct (valid_overlap _ _) as [valid_index | e]; [ | discriminate].
  destruct (Np.any valid_index).
  - destruct (patch_test_matrices _ _ _ _ _ _ _) as [[a l] | e]; [ | discriminate].
    intros H. injection H as <- _. split; [reflexivity | discriminate].
  - destruct (multibeam_files self) as [files | ]; [ | discriminate].
    intros H. injection H as <- _. repeat split; assumption.
Qed.

(** C10.  Each stage after the point collection is guarded on what its
    predecessor stores: [_grid] changes nothing unless [points] holds a
    non-empty array, [_build_patch_test_values] nothing unless [grid] is set,
    [_compute_least_squares] nothing unless both matrices are set.  Hence on
    an object whose [grid], [a_matrix], [b_matrix] and [result] are unset,
    when the point collection returns without storing points, or the matrix
    builder returns without storing [a_matrix], [run_patch] returns just
    then, without raising, and the attributes downstream of that stage are
    still unset. *)
Theorem stages_are_guarded (self : PatchTest F) (out : list (line F)) :
  (points self = None \/ points self = Some [] -> _grid self out = Ok (self, out))
  /\ (grid self = None -> _build_patch_test_values self out = Ok (self, out))
  /\ (a_matrix self = None \/ b_matrix self = None ->
      _compute_least_squares self out = Ok (self, out))
  /\ (grid self = None -> a_matrix self = None -> b_matrix self = None ->
      result self = None ->
      (forall self1 out1,
          _generate_rotated_points self out = Ok (self1, out1) ->
          points self1 = None ->
          run_patch self out = Ok (self1, out1)
          /\ grid self1 = None /\ a_matrix self1 = None
          /\ b_matrix self1 = None /\ result self1 = None)
      /\ (forall self1 out1 self2 out2 self3 out3,
          _generate_rotated_points self out = Ok (self1, out1) ->
          _grid self1 out1 = Ok (self2, out2) ->
          _build_patch_test_values self2 out2 = Ok (self3, out3) ->
          a_matrix self3 = None ->
          run_patch self out = Ok (self3, out3)
          /\ a_matrix self3 = None /\ b_matrix self3 = None
          /\ result self3 = None)).
Proof.
  split; [apply grid_guard | ].
  split; [apply build_guard | ].
  split; [apply solve_guard | ].
  intros Hg Ha Hb Hr. split.
  - intros self1 out1 H1 Hp.
    destruct (rotate_keeps _ _ H1) as (Eg & Ea & Eb & Er).
    rewrite Hg in Eg. rewrite Ha in Ea. rewrite Hb in Eb. rewrite Hr in Er.
    repeat split; try assumption.
    unfold run_patch, bind. rewrite H1.
    rewrite grid_guard by (now left).
    rewrite build_guard by assumption.
    apply solve_guard. now left.
  - intros self1 out1 self2 out2 self3 out3 H1 H2 H3 Ha3.
    destruct (rotate_keeps _ _ H1) as (_ & Ea & Eb & Er).
    assert (K2 : a_matrix self2 = a_matrix self1 /\ b_matrix self2 = b_matrix self1
                 /\ result self2 = result self1).
    { revert H2. unfold _grid.
      destruct (points self1) as [pts | ].
      - destruct (Nat.ltb 0 (length pts)).
        + destruct (multibeam_indexes self1) as [indexes | ]; [ | discriminate].
          unfold bind, lift, ret.
          destruct (add_lines _ _ _ _) as [grid_class | e]; [ | discriminate].
          intros H. injection H as <- _. repeat split.
        + unfold ret. intros H. injection H as <- _. repeat split.
      - unfold ret. intros H. injection H as <- _. repeat split. }
    destruct K2 as (Ea2 & Eb2 & Er2).
    destruct (build_keeps _ _ H3) as (Er3 & K3).
    destruct (K3 Ha3) as (_ & Eb3).
    assert (Hb3 : b_matrix self3 = None) by congruence.
    assert (Hr3 : result self3 = None) by congruence.
    repeat split; try assumption.
    unfold run_patch, bind. rewrite H1, H2, H3.
    apply solve_guard. now left.
Qed.

(** ** Solving and reporting *)

(** C6, amended.  When [np.linalg.lstsq] returns on the two matrices, the
    solver stage stores its solution in [result] and returns, whatever the
    rank, the residuals and the singular values are; it prints nothing (the
    rank is computed and dropped).  When [np.linalg.lstsq] raises, the stage
    raises the same exception: it is not caught, nothing is stored and
    nothing is printed. *)
Theorem solve_stores_solution_silently (self : PatchTest F) (out : list (line F))
    (a b : list (list F)) :
  a_matrix self = Some a -> b_matrix self = Some b ->
  (forall res residuals rank singular,
      lstsq a b = Ok (res, residuals, rank, singular) ->
      _compute_least_squares self out = Ok (set_result res self, out))
  /\ (forall e, lstsq a b = Raise e -> _compute_least_squares self out = Raise e).
Proof.
  intros Ha Hb. unfold _compute_least_squares. rewrite Ha, Hb.
  split.
  - intros res residuals rank singular Hs. rewrite Hs. reflexivity.
  - intros e Hs. rewrite Hs. reflexivity.
Qed.

(** C7, amended.  While [result] is unset the reporter returns without
    raising, leaves the object as it was and prints the heading line alone:
    no line identifiers, no parameter rows and no line telling that there is
    no result. *)
Theorem display_without_result (self : PatchTest F) (out : list (line F)) :
  result self = None ->
  display_results self out = Ok (self, out ++ [Text "Patch test results"]).
Proof.
  intros Hr. unfold display_results, bind, print. rewrite Hr.
  destruct (fqpr self); reflexivity.
Qed.

End Guards.

(** ** Collecting and rotating the points *)

Section Rotation.

Context {F : Type} {FF : Float F}.

Local Open Scope string_scope.
Local Open Scope list_scope.

(** The point buffer: the soundings of the lines, in line order. *)
Definition buffer (fq : Fqpr.t F) (files : list string) : list (Sounding F) :=
  flat_map (Fqpr.subset_variables_by_line fq) files.

(** The rotation angle, [az - 90] degrees in radians. *)
Definition theta (az : F) : F := deg2rad (fsub az (lit 90 1)).

(** A point turned by [t] about the pivot [(mx, my)]. *)
Definition rotated (t mx my : F) (p : Sounding F) : Sounding F :=
  {| sx := fsub (fadd mx (fmul (cos t) (fsub (sx p) mx))) (fmul (sin t) (fsub (sy p) my));
     sy := fadd (fadd my (fmul (sin t) (fsub (sx p) mx))) (fmul (cos t) (fsub (sy p) my));
     sz := sz p |}.

Definition final_of (c : @collected F) : option (list F * list F * list F) :=
  fst (fst c).

Definition indexes_of (c : @collected F) : dict string (nat * nat) := snd (fst c).

Lemma collect_fold (fq : Fqpr.t F) (files : list string) :
  forall xs ys zs indexes c,
    final_of (fold_left (collect_line fq) files (Some (xs, ys, zs), indexes, c))
    = Some (xs ++ map (@sx F) (buffer fq files),
            ys ++ map (@sy F) (buffer fq files),
            zs ++ map (@sz F) (buffer fq files)).
Proof.
  induction files as [ | f files IH]; intros xs ys zs indexes c; simpl.
  - now rewrite !app_nil_r.
  - rewrite IH. now rewrite !map_app, !app_assoc.
Qed.

Lemma collect_lines_final (fq : Fqpr.t F) (f : string) (files : list string) :
  final_of (collect_lines fq (f :: files))
  = Some (map (@sx F) (buffer fq (f :: files)),
          map (@sy F) (buffer fq (f :: files)),
          map (@sz F) (buffer fq (f :: files))).
Proof.
  unfold collect_lines. simpl fold_left. rewrite collect_fold.
  simpl buffer. now rewrite !map_app.
Qed.

Lemma structured_columns (pts : list (Sounding F)) :
  structured (map (@sx F) pts) (map (@sy F) pts) (map (@sz F) pts) = pts.
Proof.
  induction pts as [ | [vx vy vz] pts IH]; simpl; [reflexivity | now rewrite IH].
Qed.

Lemma rotate_columns (cos_az sin_az mx my : F) (pts : list (Sounding F)) :
  let centered_x := map (fun v => fsub v mx) (map (@sx F) pts) in
  let centered_y := map (fun v => fsub v my) (map (@sy F) pts) in
  assign_y
    (assign_x pts
       (Np.map2 (fun cx cy => fsub (fadd mx (fmul cos_az cx)) (fmul sin_az cy))
          centered_x centered_y))
    (Np.map2 (fun cx cy => fadd (fadd my (fmul sin_az cx)) (fmul cos_az cy))
       centered_x centered_y)
  = map (fun p =>
      {| sx := fsub (fadd mx (fmul cos_az (fsub (sx p) mx))) (fmul sin_az (fsub (sy p) my));
         sy := fadd (fadd my (fmul sin_az (fsub (sx p) mx))) (fmul cos_az (fsub (sy p) my));
         sz := sz p |}) pts.
Proof.
  induction pts as [ | p pts IH]; simpl; [reflexivity | ].
  unfold assign_x, assign_y in *. simpl. f_equal. apply IH.
Qed.

Lemma any_nonzero_nonempty (a : list F) : Np.any_nonzero a = true -> a <> [].
Proof. intros H ->. discriminate. Qed.

Lemma min_nonempty (a : list F) : a <> [] -> exists m, Np.min a = Ok m.
Proof. destruct a as [ | v a]; [congruence | intros _; eexists; reflexivity]. Qed.

(** When some collected x is non-zero, [_generate_rotated_points] takes the
    pivot [(min x, min y)] over the whole buffer and stores every point of the
    buffer turned by [theta az] about it, [z] as it was. *)
Lemma rotation_of_points (self : PatchTest F) (out : list (line F))
    (fq : Fqpr.t F) (az : F) :
  azimuth self = Some az -> fqpr self = Some fq ->
  Np.any_nonzero (map (@sx F) (buffer fq (Fqpr.multibeam_files fq))) = true ->
  exists mx my,
    Np.min (map (@sx F) (buffer fq (Fqpr.multibeam_files fq))) = Ok mx
    /\ Np.min (map (@sy F) (buffer fq (Fqpr.multibeam_files fq))) = Ok my
    /\ _generate_rotated_points self out
       = Ok (set_points
               (map (rotated (theta az) mx my) (buffer fq (Fqpr.multibeam_files fq)))
               mx my
               (set_lines (Fqpr.multibeam_files fq)
                  (indexes_of (collect_lines fq (Fqpr.multibeam_files fq))) self),
             out).
Proof.
  intros Haz Hfq Hany.
  pose proof (any_nonzero_nonempty Hany) as Hne.
  destruct (Fqpr.multibeam_files fq) as [ | f files] eqn:Ef; [now elim Hne | ].
  set (b := buffer fq (f :: files)) in *.
  destruct (min_nonempty Hne) as [mx Hmx].
  assert (Hney : map (@sy F) b <> []).
  { destruct b; [now elim Hne | discriminate]. }
  destruct (min_nonempty Hney) as [my Hmy].
  exists mx, my. split; [assumption | ]. split; [assumption | ].
  unfold _generate_rotated_points. rewrite Haz, Hfq, Ef.
  pose proof (collect_lines_final fq f files) as Hfin.
  unfold indexes_of.
  destruct (collect_lines fq (f :: files)) as [[final indexes] c].
  unfold final_of in Hfin. cbn [fst] in Hfin. subst final. fold b.
  rewrite Hany. rewrite structured_columns.
  unfold bind, lift, ret. rewrite Hmx, Hmy.
  rewrite rotate_columns. reflexivity.
Qed.

(** When no collected x is non-zero (in particular when no line has a
    sounding), the stage prints the no-data line with the requested lines and
    stores no points. *)
Lemma no_valid_points (self : PatchTest F) (out : list (line F))
    (fq : Fqpr.t F) (az : F) :
  azimuth self = Some az -> fqpr self = Some fq ->
  Fqpr.multibeam_files fq <> [] ->
  Np.any_nonzero (map (@sx F) (buffer fq (Fqpr.multibeam_files fq))) = false ->
  _generate_rotated_points self out
  = Ok (set_lines (Fqpr.multibeam_files fq)
          (indexes_of (collect_lines fq (Fqpr.multibeam_files fq))) self,
        out ++ [Text ("Found no valid points for "
                        ++ repr_list (Fqpr.multibeam_files fq))]).
Proof.
  intros Haz Hfq Hne Hany.
  destruct (Fqpr.multibeam_files fq) as [ | f files] eqn:Ef; [now elim Hne | ].
  unfold _generate_rotated_points. rewrite Haz, Hfq, Ef.
  pose proof (collect_lines_final fq f files) as Hfin.
  unfold indexes_of.
  destruct (collect_lines fq (f :: files)) as [[final indexes] c].
  unfold final_of in Hfin. cbn [fst] in Hfin. subst final.
  rewrite Hany. reflexivity.
Qed.

Lemma collect_two_lines (fq : Fqpr.t F) (l1 l2 : string) :
  l1 <> l2 ->
  indexes_of (collect_lines fq [l1; l2])
  = [(l1, (0, length (Fqpr.subset_variables_by_line fq l1)));
     (l2, (length (Fqpr.subset_variables_by_line fq l1),
           length (Fqpr.subset_variables_by_line fq l1)
           + length (Fqpr.subset_variables_by_line fq l2)))].
Proof.
  intros Hne. apply String.eqb_neq in Hne.
  unfold collect_lines, indexes_of. simpl.
  rewrite Hne. now rewrite !length_map.
Qed.

Lemma slices_partition {A} (l : list A) (n1 n2 : nat) :
  length l = n1 + n2 -> slice l 0 n1 ++ slice l n1 (n1 + n2) = l.
Proof.
  intros Hlen. unfold slice. rewrite (firstn_all2 (n := n1 + n2)) by lia.
  simpl. apply firstn_skipn.
Qed.

(** Index [i] lies in the half-open range [r]. *)
Definition in_range (r : nat * nat) (i : nat) : Prop := fst r <= i < snd r.

(** C3.  With exactly two lines, of [n1] and [n2] soundings, the stage returns
    and records the range [0, n1) for the first line and [n1, n1 + n2) for the
    second; the buffer has [n1 + n2] entries, every index below that lies in
    exactly one of the two ranges, the first range ends where the second
    starts, and when the points are stored the two slices put end to end are
    the stored array. *)
Theorem line_index_ranges (self : PatchTest F) (out : list (line F))
    (fq : Fqpr.t F) (az : F) (l1 l2 : string) (n1 n2 : nat) :
  azimuth self = Some az -> fqpr self = Some fq ->
  Fqpr.multibeam_files fq = [l1; l2] -> l1 <> l2 ->
  length (Fqpr.subset_variables_by_line fq l1) = n1 ->
  length (Fqpr.subset_variables_by_line fq l2) = n2 ->
  exists self' out' r1 r2,
    _generate_rotated_points self out = Ok (self', out')
    /\ multibeam_indexes self' = Some [(l1, r1); (l2, r2)]
    /\ r1 = (0, n1) /\ r2 = (n1, n1 + n2)
    /\ snd r1 = fst r2
    /\ length (buffer fq [l1; l2]) = n1 + n2
    /\ (forall i, i < n1 + n2 <-> in_range r1 i \/ in_range r2 i)
    /\ (forall i, ~ (in_range r1 i /\ in_range r2 i))
    /\ (Np.any_nonzero (map (@sx F) (buffer fq [l1; l2])) = true ->
        exists pts,
          points self' = Some pts /\ length pts = n1 + n2
          /\ slice pts (fst r1) (snd r1) ++ slice pts (fst r2) (snd r2) = pts).
Proof.
  intros Haz Hfq Ef Hne H1 H2.
  assert (Hlen : length (buffer fq [l1; l2]) = n1 + n2).
  { unfold buffer. simpl. rewrite app_nil_r, length_app. now rewrite H1, H2. }
  pose proof (collect_two_lines fq Hne) as Hidx. rewrite H1, H2 in Hidx.
  destruct (Np.any_nonzero (map (@sx F) (buffer fq [l1; l2]))) eqn:Hany.
  - destruct (@rotation_of_points self out fq az Haz Hfq) as (mx & my & _ & _ & Hrun).
    { now rewrite Ef. }
    rewrite Ef, Hidx in Hrun.
    eexists _, _, (0, n1), (n1, n1 + n2).
    split; [exact Hrun | ].
    repeat (split; [first [reflexivity | assumption
                           | unfold in_range; simpl; intros; lia] | ]).
    intros _. eexists. split; [reflexivity | ].
    assert (Hl : length (map (rotated (theta az) mx my) (buffer fq [l1; l2])) = n1 + n2)
      by now rewrite length_map.
    split; [exact Hl | ]. simpl fst. simpl snd. now apply slices_partition.
  - pose proof (@no_valid_points self out fq az Haz Hfq) as Hrun.
    rewrite Ef, Hidx in Hrun.
    eexists _, _, (0, n1), (n1, n1 + n2).
    split; [apply Hrun; [discriminate | assumption] | ].
    repeat (split; [first [reflexivity | assumption
                           | unfold in_range; simpl; intros; lia] | ]).
    discriminate.
Qed.

End Rotation.

(** The two sample lines, of three and two soundings, get the ranges [0, 3)
    and [3, 5). *)
Lemma line_index_ranges_witness :
  exists self' out' r1 r2,
    _generate_rotated_points Samples.fresh [] = Ok (self', out')
    /\ multibeam_indexes self' = Some [("line_a.all"%string, r1); ("line_b.all"%string, r2)]
    /\ r1 = (0, 3) /\ r2 = (3, 3 + 2)
    /\ snd r1 = fst r2
    /\ length (buffer Samples.two_lines ["line_a.all"%string; "line_b.all"%string]) = 3 + 2
    /\ (forall i, i < 3 + 2 <-> in_range r1 i \/ in_range r2 i)
    /\ (forall i, ~ (in_range r1 i /\ in_range r2 i))
    /\ (Np.any_nonzero
          (map (@sx float)
             (buffer Samples.two_lines ["line_a.all"%string; "line_b.all"%string])) = true ->
        exists pts,
          points self' = Some pts /\ length pts = 3 + 2
          /\ slice pts (fst r1) (snd r1) ++ slice pts (fst r2) (snd r2) = pts).
Proof.
  apply (@line_index_ranges float _ Samples.fresh [] Samples.two_lines 90%float
           "line_a.all"%string "line_b.all"%string 3 2);
    first [reflexivity | discriminate].
Defined.

(** C2, at a buffer that is not empty but has no non-zero x.  The stage
    takes the branch meant for an empty buffer: it prints the no-data line,
    stores no points and rotates nothing. *)
Theorem no_rotation_on_the_axis :
  buffer Samples.on_the_axis (Fqpr.multibeam_files Samples.on_the_axis) <> []
  /\ exists self',
       _generate_rotated_points Samples.fresh_on_the_axis []
       = Ok (self', [Text "Found no valid points for ['line_a.all', 'line_b.all']"])
       /\ points self' = None
       /\ multibeam_indexes self'
          = Some [("line_a.all"%string, (0, 2)); ("line_b.all"%string, (2, 3))].
Proof.
  split; [discriminate | ].
  eexists. split; [vm_compute; reflexivity | ]. split; reflexivity.
Qed.

(** ** Facts on arrays *)

Section ArrayFacts.

Context {A B C : Type}.

Lemma map2_app (f : A -> B -> C) (a1 a2 : list A) (b1 b2 : list B) :
  length a1 = length b1 ->
  Np.map2 f (a1 ++ a2) (b1 ++ b2) = Np.map2 f a1 b1 ++ Np.map2 f a2 b2.
Proof.
  revert b1. induction a1 as [ | x a1 IH]; intros [ | y b1] Hlen;
    simpl in *; try discriminate; [reflexivity | ].
  f_equal. apply IH. now injection Hlen.
Qed.

Lemma map2_length (f : A -> B -> C) (a : list A) (b : list B) :
  length a = length b -> length (Np.map2 f a b) = length a.
Proof.
  revert b. induction a as [ | x a IH]; intros [ | y b] Hlen;
    simpl in *; try discriminate; [reflexivity | ].
  f_equal. apply IH. now injection Hlen.
Qed.

Lemma ravel_map2 (f : A -> B -> C) (a : list (list A)) (b : list (list B)) :
  Np.same_shape a b = true ->
  Np.ravel (Np.map2 (Np.map2 f) a b) = Np.map2 f (Np.ravel a) (Np.ravel b).
Proof.
  revert b. induction a as [ | r a IH]; intros [ | s b] Hs;
    simpl in *; try discriminate; [reflexivity | ].
  apply andb_prop in Hs. destruct Hs as [Hr Hs]. apply Nat.eqb_eq in Hr.
  unfold Np.ravel in *. simpl. rewrite IH by assumption.
  symmetry. now apply map2_app.
Qed.

Lemma same_shape_ravel (a : list (list A)) (b : list (list B)) :
  Np.same_shape a b = true -> length (Np.ravel a) = length (Np.ravel b).
Proof.
  revert b. induction a as [ | r a IH]; intros [ | s b] Hs;
    simpl in *; try discriminate; [reflexivity | ].
  apply andb_prop in Hs. destruct Hs as [Hr Hs]. apply Nat.eqb_eq in Hr.
  unfold Np.ravel in *. simpl. rewrite !length_app, Hr. f_equal. now apply IH.
Qed.

Lemma same_shape_map (f : A -> C) (a : list (list A)) (b : list (list B)) :
  Np.same_shape (map (map f) a) b = Np.same_shape a b.
Proof.
  revert b. induction a as [ | r a IH]; intros [ | s b]; simpl; try reflexivity.
  now rewrite length_map, IH.
Qed.

Lemma same_shape_sym (a : list (list A)) (b : list (list B)) :
  Np.same_shape a b = Np.same_shape b a.
Proof.
  revert b. induction a as [ | r a IH]; intros [ | s b]; simpl; try reflexivity.
  now rewrite IH, Nat.eqb_sym.
Qed.

Lemma same_shape_trans (a : list (list A)) (b : list (list B)) (c : list (list C)) :
  Np.same_shape a b = true -> Np.same_shape b c = true -> Np.same_shape a c = true.
Proof.
  revert b c. induction a as [ | r a IH]; intros [ | s b] [ | t c] H1 H2;
    simpl in *; try discriminate; [reflexivity | ].
  apply andb_prop in H1. destruct H1 as [E1 H1].
  apply andb_prop in H2. destruct H2 as [E2 H2].
  apply Nat.eqb_eq in E1. apply Nat.eqb_eq in E2.
  apply andb_true_intro. split; [apply Nat.eqb_eq; congruence | eauto].
Qed.

Lemma map_fst_combine (a : list A) (b : list B) :
  length a = length b -> map fst (combine a b) = a.
Proof.
  revert b. induction a as [ | x a IH]; intros [ | y b] Hlen;
    simpl in *; try discriminate; [reflexivity | ].
  f_equal. apply IH. now injection Hlen.
Qed.

Lemma map_snd_combine (a : list A) (b : list B) :
  length a = length b -> map snd (combine a b) = b.
Proof.
  revert b. induction a as [ | x a IH]; intros [ | y b] Hlen;
    simpl in *; try discriminate; [reflexivity | ].
  f_equal. apply IH. now injection Hlen.
Qed.

Lemma map2_of_maps {D : Type} (f : A -> B -> C) (p : D -> A) (q : D -> B) (l : list D) :
  Np.map2 f (map p l) (map q l) = map (fun d => f (p d) (q d)) l.
Proof. induction l as [ | d l IH]; simpl; [reflexivity | now rewrite IH]. Qed.

Lemma compress_of_maps (p : A -> bool) (f : A -> B) (l : list A) :
  Np.compress (map p l) (map f l) = map f (filter p l).
Proof.
  induction l as [ | x l IH]; simpl; [reflexivity | ].
  destruct (p x); simpl; now rewrite IH.
Qed.

Lemma cons_col_of_maps (f : A -> B) (g : A -> list B) (l : list A) :
  Np.cons_col (map f l) (map g l) = map (fun x => f x :: g x) l.
Proof. induction l as [ | x l IH]; simpl; [reflexivity | now rewrite IH]. Qed.

Lemma of_columns_of_maps (fs : list (A -> B)) (l : list A) :
  Np.of_columns (length l) (map (fun f => map f l) fs)
  = map (fun x => map (fun f => f x) fs) l.
Proof.
  unfold Np.of_columns. induction fs as [ | f fs IH]; simpl.
  - induction l as [ | x l IHl]; simpl; [reflexivity | now rewrite IHl].
  - rewrite IH. apply cons_col_of_maps.
Qed.

Lemma column_stack_of_maps (f : A -> B) (fs : list (A -> B)) (l : list A) :
  Np.column_stack (map (fun f => map f l) (f :: fs))
  = Ok (map (fun x => map (fun f => f x) (f :: fs)) l).
Proof.
  unfold Np.column_stack. cbn [map].
  assert (Hall : forallb (fun c' => Nat.eqb (length c') (length (map f l)))
                   (map f l :: map (fun f0 => map f0 l) fs) = true).
  { apply forallb_forall. intros c' Hin.
    apply Nat.eqb_eq. rewrite length_map.
    destruct Hin as [<- | Hin]; [apply length_map | ].
    apply in_map_iff in Hin. destruct Hin as [f0 [<- _]]. apply length_map. }
  rewrite Hall. f_equal. rewrite length_map.
  apply (of_columns_of_maps (f :: fs) l).
Qed.

End ArrayFacts.

(** ** The design matrix and the observation matrix *)

Section DesignMatrix.

Context {F : Type} {FF : Float F}.

Local Open Scope string_scope.
Local Open Scope list_scope.

(** What the builder reads at one grid cell. *)
Record Cell : Type := {
  depth : F;
  x_slope : F;
  y_slope : F;
  node_y : F;
  line_one : F;
  line_two : F
}.

(** The cells of the grid in C order, from the five layers and the array of
    node y coordinates. *)
Definition cells (dpth xslope yslope y_node lineone linetwo : list (list F)) : list Cell :=
  map (fun t : F * (F * (F * (F * (F * F)))) =>
         let '(d, (xs, (ys, (ny, (l1, l2))))) := t in
         {| depth := d; x_slope := xs; y_slope := ys; node_y := ny;
            line_one := l1; line_two := l2 |})
    (combine (Np.ravel dpth)
       (combine (Np.ravel xslope)
          (combine (Np.ravel yslope)
             (combine (Np.ravel y_node)
                (combine (Np.ravel lineone) (Np.ravel linetwo)))))).

(** Both lines have a depth at the cell. *)
Definition overlaps (c : Cell) : bool :=
  negb (isnan (line_one c)) && negb (isnan (line_two c)).

(** The six columns, in order: roll, pitch, heading, x translation,
    y translation, horizontal scale factor. *)
Definition design_row (c : Cell) : list F :=
  [fsub (fmul (y_slope c) (depth c)) (node_y c);
   fmul (x_slope c) (depth c);
   fmul (x_slope c) (node_y c);
   x_slope c;
   y_slope c;
   fmul (y_slope c) (node_y c)].

Definition observation_row (c : Cell) : list F := [line_one c; line_two c].

(** The number of true entries of a mask. *)
Definition count_true (m : list (list bool)) : nat :=
  length (filter (fun b : bool => b) (Np.ravel m)).

Lemma cells_columns (dpth xslope yslope y_node lineone linetwo : list (list F)) (n : nat) :
  length (Np.ravel dpth) = n -> length (Np.ravel xslope) = n ->
  length (Np.ravel yslope) = n -> length (Np.ravel y_node) = n ->
  length (Np.ravel lineone) = n -> length (Np.ravel linetwo) = n ->
  let cs := cells dpth xslope yslope y_node lineone linetwo in
  map depth cs = Np.ravel dpth /\ map x_slope cs = Np.ravel xslope
  /\ map y_slope cs = Np.ravel yslope /\ map node_y cs = Np.ravel y_node
  /\ map line_one cs = Np.ravel lineone /\ map line_two cs = Np.ravel linetwo.
Proof.
  intros H1 H2 H3 H4 H5 H6. unfold cells. cbv zeta.
  set (t5 := combine (Np.ravel lineone) (Np.ravel linetwo)).
  set (t4 := combine (Np.ravel y_node) t5).
  set (t3 := combine (Np.ravel yslope) t4).
  set (t2 := combine (Np.ravel xslope) t3).
  assert (L5 : length t5 = n) by (unfold t5; rewrite length_combine; lia).
  assert (L4 : length t4 = n) by (unfold t4; rewrite length_combine; lia).
  assert (L3 : length t3 = n) by (unfold t3; rewrite length_combine; lia).
  assert (L2 : length t2 = n) by (unfold t2; rewrite length_combine; lia).
  rewrite !map_map.
  repeat split.
  - rewrite (map_ext _ fst) by (intros (d, (xs, (ys, (ny, (l1, l2))))); reflexivity).
    apply map_fst_combine. lia.
  - rewrite (map_ext _ (fun t => fst (snd t)))
      by (intros (d, (xs, (ys, (ny, (l1, l2))))); reflexivity).
    rewrite <- (map_map snd fst), map_snd_combine by lia.
    apply map_fst_combine. lia.
  - rewrite (map_ext _ (fun t => fst (snd (snd t))))
      by (intros (d, (xs, (ys, (ny, (l1, l2))))); reflexivity).
    rewrite <- (map_map snd (fun t => fst (snd t))), map_snd_combine by lia.
    rewrite <- (map_map snd fst). unfold t2. rewrite map_snd_combine by lia.
    apply map_fst_combine. lia.
  - rewrite (map_ext _ (fun t => fst (snd (snd (snd t)))))
      by (intros (d, (xs, (ys, (ny, (l1, l2))))); reflexivity).
    rewrite <- (map_map snd (fun t => fst (snd (snd t)))), map_snd_combine by lia.
    rewrite <- (map_map snd (fun t => fst (snd t))). unfold t2.
    rewrite map_snd_combine by lia.
    rewrite <- (map_map snd fst). unfold t3. rewrite map_snd_combine by lia.
    apply map_fst_combine. lia.
  - rewrite (map_ext _ (fun t => fst (snd (snd (snd (snd t))))))
      by (intros (d, (xs, (ys, (ny, (l1, l2))))); reflexivity).
    rewrite <- (map_map snd (fun t => fst (snd (snd (snd t))))), map_snd_combine by lia.
    rewrite <- (map_map snd (fun t => fst (snd (snd t)))). unfold t2.
    rewrite map_snd_combine by lia.
    rewrite <- (map_map snd (fun t => fst (snd t))). unfold t3.
    rewrite map_snd_combine by lia.
    rewrite <- (map_map snd fst). unfold t4. rewrite map_snd_combine by lia.
    apply map_fst_combine. lia.
  - rewrite (map_ext _ (fun t => snd (snd (snd (snd (snd t))))))
      by (intros (d, (xs, (ys, (ny, (l1, l2))))); reflexivity).
    rewrite <- (map_map snd (fun t => snd (snd (snd (snd t))))), map_snd_combine by lia.
    rewrite <- (map_map snd (fun t => snd (snd (snd t)))). unfold t2.
    rewrite map_snd_combine by lia.
    rewrite <- (map_map snd (fun t => snd (snd t))). unfold t3.
    rewrite map_snd_combine by lia.
    rewrite <- (map_map snd snd). unfold t4. rewrite map_snd_combine by lia.
    apply map_snd_combine. lia.
Qed.

Lemma same_shape_map2 {A B C D} (f : A -> B -> C) (a : list (list A))
    (b : list (list B)) (c : list (list D)) :
  Np.same_shape a b = true ->
  Np.same_shape c (Np.map2 (Np.map2 f) a b) = Np.same_shape c a.
Proof.
  revert b c. induction a as [ | r a IH]; intros [ | s b] [ | t c] Hs;
    simpl in *; try discriminate; try reflexivity.
  apply andb_prop in Hs. destruct Hs as [Hr Hs]. apply Nat.eqb_eq in Hr.
  rewrite map2_length by assumption. now rewrite IH.
Qed.

Lemma valid_overlap_aligned (lineone linetwo : list (list F)) :
  Np.same_shape linetwo lineone = true ->
  valid_overlap lineone linetwo
  = Ok (Np.map2 (Np.map2 andb) (Np.not_isnan lineone) (Np.not_isnan linetwo)).
Proof.
  intros Hs. unfold valid_overlap, Np.logical_and, Np.not_isnan.
  rewrite same_shape_map, same_shape_sym, same_shape_map. now rewrite Hs.
Qed.

Lemma mask_shape {A} (a : list (list A)) (lineone linetwo : list (list F)) :
  Np.same_shape linetwo lineone = true ->
  Np.same_shape a
    (Np.map2 (Np.map2 andb) (Np.not_isnan lineone) (Np.not_isnan linetwo))
  = Np.same_shape a lineone.
Proof.
  intros Hs. unfold Np.not_isnan. rewrite same_shape_map2.
  - now rewrite same_shape_sym, same_shape_map, same_shape_sym.
  - now rewrite same_shape_map, same_shape_sym, same_shape_map.
Qed.

End DesignMatrix.

(** ** No overlap, and the node locations *)

Section Overlap.

Context {F : Type} {FF : Float F} {LA : Linalg F}.

Local Open Scope string_scope.
Local Open Scope list_scope.

Lemma any_count_true (m : list (list bool)) :
  Np.any m = false <-> count_true m = 0.
Proof.
  unfold Np.any, count_true.
  induction (Np.ravel m) as [ | b l IH]; simpl; [tauto | ].
  destruct b; simpl; [split; discriminate | exact IH].
Qed.

(** C5.  On an object with a grid built for two lines and no matrices yet,
    when the valid-overlap mask has no true entry the matrix builder prints
    the no-overlap line naming the two lines and returns without raising and
    without storing a matrix; the solver stage then changes nothing, so
    [result] stays unset. *)
Theorem no_overlap_halts (self : PatchTest F) (out : list (line F))
    (g : Grid.t F) (indexes : dict string (nat * nat)) (l0 l1 : string)
    (valid_index : list (list bool)) :
  grid self = Some g ->
  multibeam_indexes self = Some indexes -> keys indexes = [l0; l1] ->
  multibeam_files self = Some [l0; l1] ->
  a_matrix self = None -> b_matrix self = None -> result self = None ->
  valid_overlap (Grid.layers g l0) (Grid.layers g l1) = Ok valid_index ->
  count_true valid_index = 0 ->
  _build_patch_test_values self out
  = Ok (self, out ++ [Text ("No valid overlap found for lines: " ++ repr_list [l0; l1])])
  /\ bind (_build_patch_test_values self) _compute_least_squares out
     = Ok (self, out ++ [Text ("No valid overlap found for lines: " ++ repr_list [l0; l1])])
  /\ result self = None.
Proof.
  intros Hg Hi Hk Hf Ha Hb Hr Hv Hc.
  apply any_count_true in Hc.
  assert (Hbuild : _build_patch_test_values self out
            = Ok (self, out ++ [Text ("No valid overlap found for lines: "
                                        ++ repr_list [l0; l1])])).
  { unfold _build_patch_test_values. rewrite Hg, Hi, Hk, Hf.
    unfold bind, lift, index. cbn [nth_error Grid.get_layers_by_name map].
    rewrite Hv, Hc. reflexivity. }
  split; [exact Hbuild | ]. split; [ | exact Hr].
  unfold bind. rewrite Hbuild.
  unfold _compute_least_squares. now rewrite Ha.
Qed.

(** With a true entry in the mask, the builder stores the normal equations of
    the two matrices: [A^T A] and [A^T L]. *)
Lemma build_stores_normal_equations (self : PatchTest F) (out : list (line F))
    (g : Grid.t F) (indexes : dict string (nat * nat)) (l0 l1 : string)
    (rest : list string) (valid_index : list (list bool))
    (a l : list (list F)) :
  grid self = Some g ->
  multibeam_indexes self = Some indexes -> keys indexes = l0 :: l1 :: rest ->
  valid_overlap (Grid.layers g l0) (Grid.layers g l1) = Ok valid_index ->
  Np.any valid_index = true ->
  patch_test_matrices g (Grid.layers g "depth") (Grid.layers g "x_slope")
    (Grid.layers g "y_slope") (Grid.layers g l0) (Grid.layers g l1) valid_index
  = Ok (a, l) ->
  _build_patch_test_values self out
  = Ok (set_matrices (Np.dot (Np.T a) a) (Np.dot (Np.T a) l) self, out).
Proof.
  intros Hg Hi Hk Hv Hany Hm.
  unfold _build_patch_test_values. rewrite Hg, Hi, Hk.
  unfold bind, lift, index. cbn [nth_error Grid.get_layers_by_name map].
  rewrite Hv, Hany, Hm. reflexivity.
Qed.

(** Modelled from the spec: the layers come from bathygrid, which is not part
    of this repository; the spec gives their indexing, the entry at index
    (i, j) of a layer being the cell whose centre is
    (min_x + i*res + res/2, min_y + j*res + res/2).  So a layer has one row
    per x step and one column per y step. *)
Definition cell_center (g : Grid.t F) (rez : F) (i j : nat) : F * F :=
  (fadd (fadd (Grid.min_x g) (fmul (Np.of_nat i) rez)) (fdiv rez (lit 2 1)),
   fadd (fadd (Grid.min_y g) (fmul (Np.of_nat j) rez)) (fdiv rez (lit 2 1))).

Definition layer_shape (g : Grid.t F) (rez : F) : nat * nat :=
  (arange_len (Grid.min_x g) (Grid.max_x g) rez,
   arange_len (Grid.min_y g) (Grid.max_y g) rez).

(** The shape of an array of rows. *)
Definition shape {A} (a : list (list A)) : nat * nat :=
  (length a, length (hd [] a)).

Lemma nth_map_lt {A B} (f : A -> B) (l : list A) (n : nat) (d : A) (d' : B) :
  n < length l -> nth n (map f l) d' = f (nth n l d).
Proof.
  intros Hn. rewrite (nth_indep _ d' (f d)) by now rewrite length_map.
  apply map_nth.
Qed.

(** The node-location arrays have one row per element of [yval] and one
    column per element of [xval]; at row [r] and column [c] they hold the x
    centre of column [c] and the y centre of row [r]. *)
Lemma node_locs_entries (g : Grid.t F) (rez : F) (rest : list F) (d : F) :
  Grid.resolutions g = rez :: rest ->
  exists x_node_locs y_node_locs,
    node_locs g = Ok (x_node_locs, y_node_locs)
    /\ length x_node_locs = arange_len (Grid.min_y g) (Grid.max_y g) rez
    /\ length y_node_locs = arange_len (Grid.min_y g) (Grid.max_y g) rez
    /\ forall r c,
        r < arange_len (Grid.min_y g) (Grid.max_y g) rez ->
        c < arange_len (Grid.min_x g) (Grid.max_x g) rez ->
        length (nth r x_node_locs []) = arange_len (Grid.min_x g) (Grid.max_x g) rez
        /\ length (nth r y_node_locs []) = arange_len (Grid.min_x g) (Grid.max_x g) rez
        /\ nth c (nth r x_node_locs []) d
           = fadd (fadd (Grid.min_x g) (fmul (Np.of_nat c) rez)) (fdiv rez (lit 2 1))
        /\ nth c (nth r y_node_locs []) d
           = fadd (fadd (Grid.min_y g) (fmul (Np.of_nat r) rez)) (fdiv rez (lit 2 1)).
Proof.
  intros Hres. unfold node_locs, index. rewrite Hres. cbn [nth_error].
  set (nx := arange_len (Grid.min_x g) (Grid.max_x g) rez).
  set (ny := arange_len (Grid.min_y g) (Grid.max_y g) rez).
  set (half := fdiv rez (lit 2 1)).
  set (xs := map (fun v => fadd v half) (Np.arange (Grid.min_x g) (Grid.max_x g) rez)).
  set (ys := map (fun v => fadd v half) (Np.arange (Grid.min_y g) (Grid.max_y g) rez)).
  assert (Lx : length xs = nx).
  { unfold xs, Np.arange. now rewrite !length_map, length_seq. }
  assert (Ly : length ys = ny).
  { unfold ys, Np.arange. now rewrite !length_map, length_seq. }
  assert (Ex : forall c, c < nx ->
             nth c xs d = fadd (fadd (Grid.min_x g) (fmul (Np.of_nat c) rez)) half).
  { intros c Hc. unfold xs, Np.arange. rewrite map_map.
    rewrite (nth_map_lt _ _ 0) by now rewrite length_seq.
    now rewrite seq_nth. }
  assert (Ey : forall r, r < ny ->
             nth r ys d = fadd (fadd (Grid.min_y g) (fmul (Np.of_nat r) rez)) half).
  { intros r Hr. unfold ys, Np.arange. rewrite map_map.
    rewrite (nth_map_lt _ _ 0) by now rewrite length_seq.
    now rewrite seq_nth. }
  eexists _, _. split; [reflexivity | ].
  unfold Np.meshgrid. fold xs. fold ys.
  split; [now rewrite length_map | ]. split; [now rewrite length_map | ].
  intros r c Hr Hc.
  rewrite !(nth_map_lt _ _ d) by now rewrite Ly.
  split; [exact Lx | ]. split; [now rewrite length_map | ].
  split; [now apply Ex | ].
  rewrite (nth_map_lt _ _ d) by now rewrite Lx.
  now apply Ey.
Qed.

End Overlap.

(** ** Runs of the whole pipeline *)

Section Runs.

Context {F : Type} {FF : Float F} {BG : Bathygrid F} {LA : Linalg F}.

Local Open Scope string_scope.
Local Open Scope list_scope.

(** When the data source has no sounding for any line, [run_patch] on a
    newly built object prints the no-data line with the requested lines and
    returns with nothing stored but the line bookkeeping. *)
Lemma run_without_soundings (self : PatchTest F) (out : list (line F))
    (fq : Fqpr.t F) (az : F) :
  azimuth self = Some az -> fqpr self = Some fq ->
  Fqpr.multibeam_files fq <> [] ->
  buffer fq (Fqpr.multibeam_files fq) = [] ->
  points self = None -> grid self = None ->
  a_matrix self = None -> b_matrix self = None -> result self = None ->
  exists self',
    run_patch self out
    = Ok (self', out ++ [Text ("Found no valid points for "
                                 ++ repr_list (Fqpr.multibeam_files fq))])
    /\ points self' = None /\ grid self' = None /\ result self' = None.
Proof.
  intros Haz Hfq Hne Hb Hp Hg Ha Hbm Hr.
  pose proof (@no_valid_points F FF self out fq az Haz Hfq Hne) as H1.
  rewrite Hb in H1. specialize (H1 eq_refl).
  eexists. split.
  - unfold run_patch, bind. rewrite H1.
    rewrite grid_guard by (left; exact Hp).
    rewrite build_guard by exact Hg.
    apply solve_guard. left. exact Ha.
  - repeat split; simpl; assumption.
Qed.

Lemma get_of_key {V} (d : dict string V) (k : string) :
  In k (keys d) -> exists v, Py.get d k = Some v.
Proof.
  induction d as [ | [k' v'] d IH]; simpl; [contradiction | ].
  intros [-> | Hin].
  - rewrite String.eqb_refl. now exists v'.
  - destruct (String.eqb k' k); [now exists v' | now apply IH].
Qed.

Lemma add_lines_returns (pts : list (Sounding F)) (indexes : dict string (nat * nat))
    (linenames : list string) :
  (forall k, In k linenames -> In k (keys indexes)) ->
  forall grid_class, exists g, add_lines pts indexes linenames grid_class = Ok g.
Proof.
  induction linenames as [ | k linenames IH]; intros Hin grid_class; simpl.
  - now exists grid_class.
  - destruct (get_of_key indexes k (Hin k (or_introl eq_refl))) as [idxs ->].
    apply IH. intros k' Hk'. apply Hin. now right.
Qed.

(** When some collected x is non-zero, the run goes on to build the grid
    from the rotated points. *)
Lemma run_reaches_gridding (self : PatchTest F) (out : list (line F))
    (fq : Fqpr.t F) (az : F) :
  azimuth self = Some az -> fqpr self = Some fq ->
  Np.any_nonzero (map (@sx F) (buffer fq (Fqpr.multibeam_files fq))) = true ->
  exists self2 g,
    bind (_generate_rotated_points self) _grid out = Ok (self2, out)
    /\ grid self2 = Some g.
Proof.
  intros Haz Hfq Hany.
  destruct (@rotation_of_points F FF self out fq az Haz Hfq Hany)
    as (mx & my & _ & _ & H1).
  pose proof (any_nonzero_nonempty Hany) as Hne.
  unfold bind. rewrite H1. unfold _grid. cbn [points set_points].
  destruct (buffer fq (Fqpr.multibeam_files fq)) as [ | p b]; [now elim Hne | ].
  cbn [map length Nat.ltb Nat.leb multibeam_indexes set_points set_lines].
  set (indexes := indexes_of (collect_lines fq (Fqpr.multibeam_files fq))).
  set (pts := _ :: _).
  destruct (add_lines_returns pts indexes (keys indexes) (fun k H => H) create_grid)
    as [grid_class Hadd].
  unfold bind, lift, ret. rewrite Hadd.
  eexists _, _. split; reflexivity.
Qed.

End Runs.

(** ** Concrete runs *)

Section ConcreteRuns.

Import Samples.

Local Open Scope string_scope.
Local Open Scope list_scope.
Local Open Scope float_scope.

(** C1, at a grid two cells long in x and one in y, and at a square grid.
    On the long grid the five layers share the shape (2, 1) and the mask holds
    at both cells, yet the builder assembles no matrix: the node array it
    masks has the shape (1, 2) and it raises IndexError.  On the square grid
    whose lines meet at index (1, 0) only, the builder returns one design row,
    computed with node_y = 1.5, the y centre of the cell at index (0, 1): it
    is [12.5, 21, 4.5, 3, 2, 3], where the cell at index (1, 0) has its centre
    at y = 0.5 and the six columns of the claim are
    [13.5, 21, 1.5, 3, 2, 1]. *)
Theorem design_matrix_on_aligned_layers :
  Np.same_shape (Grid.layers long_grid "depth") (Grid.layers long_grid "line_a.all") = true
  /\ Np.same_shape (Grid.layers long_grid "x_slope") (Grid.layers long_grid "line_a.all")
     = true
  /\ Np.same_shape (Grid.layers long_grid "y_slope") (Grid.layers long_grid "line_a.all")
     = true
  /\ Np.same_shape (Grid.layers long_grid "line_b.all") (Grid.layers long_grid "line_a.all")
     = true
  /\ valid_overlap (Grid.layers long_grid "line_a.all")
       (Grid.layers long_grid "line_b.all") = Ok [[true]; [true]]
  /\ patch_test_matrices long_grid
       (Grid.layers long_grid "depth") (Grid.layers long_grid "x_slope")
       (Grid.layers long_grid "y_slope") (Grid.layers long_grid "line_a.all")
       (Grid.layers long_grid "line_b.all") [[true]; [true]] = Raise IndexError
  /\ _build_patch_test_values (gridded long_grid) [] = Raise IndexError
  /\ valid_overlap (Grid.layers skew_grid "line_a.all")
       (Grid.layers skew_grid "line_b.all") = Ok [[false; false]; [true; false]]
  /\ patch_test_matrices skew_grid
       (Grid.layers skew_grid "depth") (Grid.layers skew_grid "x_slope")
       (Grid.layers skew_grid "y_slope") (Grid.layers skew_grid "line_a.all")
       (Grid.layers skew_grid "line_b.all") [[false; false]; [true; false]]
     = Ok ([[12.5; 21; 4.5; 3; 2; 3]], [[7; 8]])
  /\ cell_center skew_grid 1 1 0 = (1.5, 0.5)
  /\ design_row {| depth := 7; x_slope := 3; y_slope := 2; node_y := 0.5;
                   line_one := 7; line_two := 8 |}
     = [13.5; 21; 1.5; 3; 2; 1]
  /\ design_row {| depth := 7; x_slope := 3; y_slope := 2; node_y := 1.5;
                   line_one := 7; line_two := 8 |}
     = [12.5; 21; 4.5; 3; 2; 3].
Proof. repeat split. Qed.

(** The matrices of the square sample grid, whose mask holds at indices
    (0, 0) and (1, 1). *)
Example square_grid_matrices :
  patch_test_matrices square_grid
    (Grid.layers square_grid "depth") (Grid.layers square_grid "x_slope")
    (Grid.layers square_grid "y_slope") (Grid.layers square_grid "line_a.all")
    (Grid.layers square_grid "line_b.all") [[true; false]; [false; true]]
  = Ok ([[9.5; 5; 0.5; 1; 2; 1]; [14.5; 32; 6; 4; 2; 3]], [[5; 6]; [9; 7]]).
Proof. vm_compute. reflexivity. Qed.

(** The lines of the disjoint sample grid share no cell. *)
Lemma no_overlap_halts_witness :
  _build_patch_test_values (gridded disjoint_grid) []
  = Ok (gridded disjoint_grid,
        [] ++ [Text ("No valid overlap found for lines: "
                       ++ repr_list ["line_a.all"; "line_b.all"])])
  /\ bind (_build_patch_test_values (gridded disjoint_grid)) _compute_least_squares []
     = Ok (gridded disjoint_grid,
           [] ++ [Text ("No valid overlap found for lines: "
                          ++ repr_list ["line_a.all"; "line_b.all"])])
  /\ result (gridded disjoint_grid) = None.
Proof.
  apply (@no_overlap_halts float _ zero_solver (gridded disjoint_grid) [] disjoint_grid
           [("line_a.all", (0, 3)%nat); ("line_b.all", (3, 5)%nat)]
           "line_a.all" "line_b.all" [[false; false]; [false; false]]);
    reflexivity.
Defined.

(** The solver stage on the sample normal equations of rank 0, where the
    solver returns, and on normal equations with entries that are NaN, where
    it raises. *)
Lemma solve_stores_solution_silently_witness :
  _compute_least_squares zero_system []
  = Ok (set_result (zeros 6 2) zero_system, [])
  /\ _compute_least_squares nan_system []
     = Raise (LinAlgError "SVD did not converge in Linear Least Squares").
Proof.
  split.
  - apply (proj1 (@solve_stores_solution_silently float zero_solver zero_system []
                    (zeros 6 6) (zeros 6 2) eq_refl eq_refl)
             (zeros 6 2) [] 0%nat [0; 0; 0; 0; 0; 0]).
    reflexivity.
  - apply (proj2 (@solve_stores_solution_silently float zero_solver nan_system []
                    (repeat (repeat nan 6) 6) (zeros 6 2) eq_refl eq_refl)).
    reflexivity.
Defined.

(** C6, as stated, fails: on normal equations of rank 0 the solver stage
    stores a solution and prints no line at all, so no rank and no rank
    deficiency is reported. *)
Lemma solver_reports_no_rank :
  a_matrix zero_system = Some (zeros 6 6)
  /\ b_matrix zero_system = Some (zeros 6 2)
  /\ lstsq (zeros 6 6) (zeros 6 2) = Ok (zeros 6 2, [], 0%nat, [0; 0; 0; 0; 0; 0])
  /\ _compute_least_squares zero_system [] = Ok (set_result (zeros 6 2) zero_system, []).
Proof. repeat split. Qed.

(** A depth that is NaN reaches the solver: the mask tests the two lines'
    layers only.  On the square grid without a depth at index (0, 0), where
    both lines have one, the builder stores normal equations with entries that
    are NaN; a solver that raises on them ends the run. *)
Example missing_depth_reaches_solver :
  exists a b,
    _build_patch_test_values (gridded missing_depth_grid) []
    = Ok (set_matrices a b (gridded missing_depth_grid), [])
    /\ has_nan a = true /\ has_nan b = true
    /\ lstsq a b = Raise (LinAlgError "SVD did not converge in Linear Least Squares")
    /\ bind (_build_patch_test_values (gridded missing_depth_grid))
         _compute_least_squares []
       = Raise (LinAlgError "SVD did not converge in Linear Least Squares").
Proof.
  eexists. eexists. split; [vm_compute; reflexivity | ].
  repeat split.
Qed.

(** The reporter on a newly built object. *)
Lemma display_without_result_witness :
  display_results fresh [] = Ok (fresh, [] ++ [Text "Patch test results"]).
Proof. apply (@display_without_result float fresh []). reflexivity. Defined.

(** C7, as stated, fails: after an aborted run the reporter prints the
    heading it prints on every call and nothing else, so nothing it prints
    tells that there is no result. *)
Lemma display_reports_nothing :
  exists self',
    run_patch fresh_on_the_axis []
    = Ok (self', [Text "Found no valid points for ['line_a.all', 'line_b.all']"])
    /\ result self' = None
    /\ display_results self' [] = Ok (self', [Text "Patch test results"]).
Proof. eexists. split; [vm_compute; reflexivity | split; reflexivity]. Qed.

(** The guards on the two aborted sample runs: no valid point, and no
    overlap. *)
Lemma stages_are_guarded_witness :
  (exists self1 out1,
      run_patch fresh_on_the_axis [] = Ok (self1, out1)
      /\ grid self1 = None /\ a_matrix self1 = None
      /\ b_matrix self1 = None /\ result self1 = None)
  /\ (exists self3 out3,
      run_patch fresh_second_line_empty [] = Ok (self3, out3)
      /\ a_matrix self3 = None /\ b_matrix self3 = None /\ result self3 = None).
Proof.
  split.
  - destruct (@stages_are_guarded float _ one_cell zero_solver fresh_on_the_axis [])
      as (_ & _ & _ & H).
    destruct (H eq_refl eq_refl eq_refl eq_refl) as [H1 _].
    eexists _, _. apply H1; [lazy; reflexivity | reflexivity].
  - destruct (@stages_are_guarded float _ one_cell zero_solver fresh_second_line_empty [])
      as (_ & _ & _ & H).
    destruct (H eq_refl eq_refl eq_refl eq_refl) as [_ H3].
    eexists _, _. eapply H3; [lazy; reflexivity | lazy; reflexivity | lazy; reflexivity | reflexivity].
Defined.

(** C4, at two lines that return three soundings, all with x = 0.  The run
    stops as on an empty buffer: it prints the no-data line, stores no points
    and builds no grid, whatever the gridding engine and the solver. *)
Theorem run_stops_on_the_axis (BG : Bathygrid float) (LA : Linalg float) :
  length (buffer on_the_axis (Fqpr.multibeam_files on_the_axis)) = 3%nat
  /\ exists self',
       run_patch fresh_on_the_axis []
       = Ok (self', [Text "Found no valid points for ['line_a.all', 'line_b.all']"])
       /\ points self' = None /\ grid self' = None /\ result self' = None.
Proof.
  split; [reflexivity | ].
  eexists. split; [vm_compute; reflexivity | repeat split].
Qed.

(** C8, at a grid two cells long in x and one in y, and at a square grid.
    The node arrays come out with one row per y step and one column per
    x step.  For the long grid that is one row of two entries, while its
    layers have two rows of one entry, so the mask cannot index the node array
    and the builder raises IndexError.  For the square grid the shapes agree,
    and the entry at index (1, 0) is (0.5, 1.5), the centre of the cell at
    index (0, 1), where the cell at index (1, 0) has its centre at
    (1.5, 0.5). *)
Theorem node_locs_are_transposed :
  node_locs long_grid = Ok ([[0.5; 1.5]], [[0.5; 0.5]])
  /\ layer_shape long_grid 1 = (2, 1)%nat
  /\ shape (Grid.layers long_grid "line_a.all") = (2, 1)%nat
  /\ shape [[0.5; 0.5]] = (1, 2)%nat
  /\ valid_overlap (Grid.layers long_grid "line_a.all")
       (Grid.layers long_grid "line_b.all") = Ok [[true]; [true]]
  /\ _build_patch_test_values (gridded long_grid) [] = Raise IndexError
  /\ node_locs square_grid = Ok ([[0.5; 1.5]; [0.5; 1.5]], [[0.5; 0.5]; [1.5; 1.5]])
  /\ (nth 0 (nth 1 [[0.5; 1.5]; [0.5; 1.5]] []) nan,
      nth 0 (nth 1 [[0.5; 0.5]; [1.5; 1.5]] []) nan) = (0.5, 1.5)
  /\ cell_center square_grid 1 1 0 = (1.5, 0.5)
  /\ cell_center square_grid 1 0 1 = (0.5, 1.5).
Proof. repeat split. Qed.

End ConcreteRuns.

(** ** More on collecting, rotating and gridding *)

Section LineBookkeeping.

Context {F : Type} {FF : Float F}.

Local Open Scope string_scope.
Local Open Scope list_scope.

Lemma set_new_key {V} (d : dict string V) (k : string) (v : V) :
  ~ In k (keys d) -> Py.set d k v = d ++ [(k, v)].
Proof.
  induction d as [ | [k' v'] d IH]; simpl; intros Hn; [reflexivity | ].
  destruct (String.eqb k' k) eqn:E.
  - apply String.eqb_eq in E. elim Hn. now left.
  - f_equal. apply IH. intros Hin. apply Hn. now right.
Qed.

(** The ranges the loop of [_generate_rotated_points] records, line by line:
    a line starts where [curr_point_index] stands, which after a line is the
    number of soundings of that line. *)
Fixpoint recorded_ranges (fq : Fqpr.t F) (files : list string) (curr_point_index : nat)
    : dict string (nat * nat) :=
  match files with
  | [] => []
  | mfilename :: files' =>
      let n := length (Fqpr.subset_variables_by_line fq mfilename) in
      (mfilename, (curr_point_index, curr_point_index + n))
        :: recorded_ranges fq files' n
  end.

Lemma recorded_keys (fq : Fqpr.t F) (files : list string) (c : nat) :
  keys (recorded_ranges fq files c) = files.
Proof.
  revert c. induction files as [ | f files IH]; intros c; simpl;
    [reflexivity | now rewrite IH].
Qed.

Lemma collect_fold_indexes (fq : Fqpr.t F) (files : list string) :
  NoDup files ->
  forall final indexes c,
    (forall f, In f files -> ~ In f (keys indexes)) ->
    indexes_of (fold_left (collect_line fq) files (final, indexes, c))
    = indexes ++ recorded_ranges fq files c.
Proof.
  induction files as [ | f files IH]; intros Hnd final indexes c Hfresh.
  - simpl. unfold indexes_of. simpl. now rewrite app_nil_r.
  - inversion Hnd as [ | ? ? Hnotin Hnd']; subst.
    assert (Hset : Py.set indexes f
                     (c, c + length (map (@sx F) (Fqpr.subset_variables_by_line fq f)))
                   = indexes ++ [(f, (c, c + length (Fqpr.subset_variables_by_line fq f)))]).
    { rewrite length_map. apply set_new_key. apply Hfresh. now left. }
    assert (Hfresh' : forall f', In f' files ->
               ~ In f' (keys (indexes
                               ++ [(f, (c, c + length (Fqpr.subset_variables_by_line fq f)))]))).
    { intros f' Hin. unfold keys. rewrite map_app, in_app_iff. simpl.
      intros [H | [H | []]].
      - apply (Hfresh f'); [now right | exact H].
      - subst f'. contradiction. }
    cbn [fold_left]. unfold collect_line at 2.
    destruct final as [[[finalx finaly] finalz] | ]; rewrite Hset;
      rewrite IH by assumption; rewrite <- app_assoc; simpl;
      now rewrite length_map.
Qed.

Lemma collect_lines_indexes (fq : Fqpr.t F) (files : list string) :
  NoDup files ->
  indexes_of (collect_lines fq files) = recorded_ranges fq files 0.
Proof.
  intros Hnd. unfold collect_lines.
  rewrite collect_fold_indexes by (assumption || intros f _ []).
  reflexivity.
Qed.

(** X3.  For any number of lines, the stage returns and records for each line
    the range that starts at the number of soundings of the line before it
    (0 for the first line) and is as long as the line; the keys of
    [multibeam_indexes] are the lines in order.  From the third line on the
    start is the previous line's count, not the running total. *)
Theorem ranges_start_at_previous_count (self : PatchTest F) (out : list (line F))
    (fq : Fqpr.t F) (az : F) :
  azimuth self = Some az -> fqpr self = Some fq ->
  Fqpr.multibeam_files fq <> [] -> NoDup (Fqpr.multibeam_files fq) ->
  exists self' out',
    _generate_rotated_points self out = Ok (self', out')
    /\ multibeam_files self' = Some (Fqpr.multibeam_files fq)
    /\ multibeam_indexes self'
       = Some (recorded_ranges fq (Fqpr.multibeam_files fq) 0)
    /\ keys (recorded_ranges fq (Fqpr.multibeam_files fq) 0)
       = Fqpr.multibeam_files fq.
Proof.
  intros Haz Hfq Hne Hnd.
  pose proof (collect_lines_indexes fq Hnd) as Hidx.
  destruct (Np.any_nonzero (map (@sx F) (buffer fq (Fqpr.multibeam_files fq)))) eqn:Hany.
  - destruct (@rotation_of_points F FF self out fq az Haz Hfq Hany)
      as (mx & my & _ & _ & Hrun).
    rewrite Hidx in Hrun.
    eexists _, _. split; [exact Hrun | ].
    repeat split. apply recorded_keys.
  - pose proof (@no_valid_points F FF self out fq az Haz Hfq Hne Hany) as Hrun.
    rewrite Hidx in Hrun.
    eexists _, _. split; [exact Hrun | ].
    repeat split. apply recorded_keys.
Qed.

(** X1.  When some collected x is non-zero, the stage prints nothing, stores
    the minimum x and the minimum y of the whole buffer as [min_x] and
    [min_y], and stores as [points] every sounding of the buffer, in order,
    turned by [az - 90] degrees about that pivot, its [z] unchanged. *)
Theorem rotation_about_the_pivot (self : PatchTest F) (out : list (line F))
    (fq : Fqpr.t F) (az : F) :
  azimuth self = Some az -> fqpr self = Some fq ->
  Np.any_nonzero (map (@sx F) (buffer fq (Fqpr.multibeam_files fq))) = true ->
  exists self' mx my pts,
    _generate_rotated_points self out = Ok (self', out)
    /\ Np.min (map (@sx F) (buffer fq (Fqpr.multibeam_files fq))) = Ok mx
    /\ Np.min (map (@sy F) (buffer fq (Fqpr.multibeam_files fq))) = Ok my
    /\ min_x self' = Some mx /\ min_y self' = Some my
    /\ points self' = Some pts
    /\ pts = map (rotated (theta az) mx my) (buffer fq (Fqpr.multibeam_files fq))
    /\ map (@sz F) pts = map (@sz F) (buffer fq (Fqpr.multibeam_files fq))
    /\ length pts = length (buffer fq (Fqpr.multibeam_files fq)).
Proof.
  intros Haz Hfq Hany.
  destruct (@rotation_of_points F FF self out fq az Haz Hfq Hany)
    as (mx & my & Hmx & Hmy & Hrun).
  eexists _, mx, my, _. split; [exact Hrun | ].
  repeat (split; [first [assumption | reflexivity] | ]).
  split; [ | apply length_map].
  rewrite map_map. reflexivity.
Qed.

(** X4.  With no line in the record the stage, and so [run_patch], raises
    AttributeError ([finalx] is still [None] when [finalx.any()] is called)
    instead of printing the no-data line; without an azimuth they raise
    TypeError before any line is read. *)
Theorem no_line_raises {BG : Bathygrid F} {LA : Linalg F}
    (self : PatchTest F) (out : list (line F)) :
  (forall fq az,
      azimuth self = Some az -> fqpr self = Some fq ->
      Fqpr.multibeam_files fq = [] ->
      _generate_rotated_points self out = Raise AttributeError
      /\ run_patch self out = Raise AttributeError)
  /\ (azimuth self = None ->
      _generate_rotated_points self out = Raise TypeError
      /\ run_patch self out = Raise TypeError).
Proof.
  split.
  - intros fq az Haz Hfq Hnil.
    assert (H : _generate_rotated_points self out = Raise AttributeError).
    { unfold _generate_rotated_points. rewrite Haz, Hfq, Hnil. reflexivity. }
    split; [exact H | ]. unfold run_patch, bind. now rewrite H.
  - intros Haz.
    assert (H : _generate_rotated_points self out = Raise TypeError).
    { unfold _generate_rotated_points. rewrite Haz. reflexivity. }
    split; [exact H | ]. unfold run_patch, bind. now rewrite H.
Qed.

End LineBookkeeping.

Section MoreRuns.

Context {F : Type} {FF : Float F} {BG : Bathygrid F} {LA : Linalg F}.

Local Open Scope string_scope.
Local Open Scope list_scope.

Lemma empty_lines (fq : Fqpr.t F) (files : list string) :
  (forall f, In f files -> Fqpr.subset_variables_by_line fq f = []) ->
  buffer fq files = []
  /\ recorded_ranges fq files 0 = map (fun f => (f, (0, 0))) files.
Proof.
  induction files as [ | f files IH]; intros Hempty; [split; reflexivity | ].
  destruct IH as [IHb IHr]; [intros f' Hin; apply Hempty; now right | ].
  unfold buffer in *. simpl. rewrite (Hempty f) by now left.
  simpl. split; [exact IHb | now rewrite IHr].
Qed.

(** X2.  When no line has a sounding, [run_patch] on an object without
    points, grid and matrices prints the no-data line with the requested
    lines and nothing else, returns without raising, and leaves [points],
    [grid], the matrices and [result] unset; only the line bookkeeping is
    stored, every range being empty. *)
Theorem no_sounding_no_data (self : PatchTest F) (out : list (line F))
    (fq : Fqpr.t F) (az : F) :
  azimuth self = Some az -> fqpr self = Some fq ->
  Fqpr.multibeam_files fq <> [] -> NoDup (Fqpr.multibeam_files fq) ->
  (forall f, In f (Fqpr.multibeam_files fq) -> Fqpr.subset_variables_by_line fq f = []) ->
  points self = None -> grid self = None ->
  a_matrix self = None -> b_matrix self = None -> result self = None ->
  exists self',
    run_patch self out
    = Ok (self', out ++ [Text ("Found no valid points for "
                                 ++ repr_list (Fqpr.multibeam_files fq))])
    /\ points self' = None /\ grid self' = None
    /\ a_matrix self' = None /\ b_matrix self' = None /\ result self' = None
    /\ multibeam_indexes self'
       = Some (map (fun f => (f, (0, 0))) (Fqpr.multibeam_files fq)).
Proof.
  intros Haz Hfq Hne Hnd Hempty Hp Hg Ha Hb Hr.
  destruct (empty_lines fq (Fqpr.multibeam_files fq) Hempty) as [Hbuf Hidx].
  pose proof (@no_valid_points F FF self out fq az Haz Hfq Hne) as H1.
  rewrite Hbuf in H1. specialize (H1 eq_refl).
  rewrite (collect_lines_indexes fq Hnd), Hidx in H1.
  eexists. split.
  - unfold run_patch, bind. rewrite H1.
    rewrite grid_guard by (left; exact Hp).
    rewrite build_guard by exact Hg.
    apply solve_guard. left. exact Ha.
  - repeat split; simpl; assumption.
Qed.

(** X5.  With a single line that has a sounding of non-zero x, [run_patch]
    rotates and grids the points and then raises IndexError in the matrix
    builder, which reads a second line name ([line_layers[1]]). *)
Theorem single_line_raises (self : PatchTest F) (out : list (line F))
    (fq : Fqpr.t F) (az : F) (l0 : string) :
  azimuth self = Some az -> fqpr self = Some fq ->
  Fqpr.multibeam_files fq = [l0] ->
  Np.any_nonzero (map (@sx F) (Fqpr.subset_variables_by_line fq l0)) = true ->
  (exists self2 g,
      bind (_generate_rotated_points self) _grid out = Ok (self2, out)
      /\ grid self2 = Some g)
  /\ run_patch self out = Raise IndexError.
Proof.
  intros Haz Hfq Ef Hany.
  assert (Hany' : Np.any_nonzero (map (@sx F) (buffer fq (Fqpr.multibeam_files fq))) = true).
  { rewrite Ef. unfold buffer. simpl. now rewrite app_nil_r. }
  destruct (@rotation_of_points F FF self out fq az Haz Hfq Hany')
    as (mx & my & _ & _ & H1).
  pose proof (any_nonzero_nonempty Hany') as Hne.
  assert (Hidx : indexes_of (collect_lines fq (Fqpr.multibeam_files fq))
                 = [(l0, (0, length (Fqpr.subset_variables_by_line fq l0)))]).
  { rewrite Ef. unfold collect_lines, indexes_of. simpl. now rewrite length_map. }
  rewrite Hidx in H1.
  assert (H2 : exists g,
             _grid (set_points
                      (map (rotated (theta az) mx my) (buffer fq (Fqpr.multibeam_files fq)))
                      mx my
                      (set_lines (Fqpr.multibeam_files fq)
                         [(l0, (0, length (Fqpr.subset_variables_by_line fq l0)))] self))
               out
             = Ok (set_grid g
                     (set_points
                        (map (rotated (theta az) mx my) (buffer fq (Fqpr.multibeam_files fq)))
                        mx my
                        (set_lines (Fqpr.multibeam_files fq)
                           [(l0, (0, length (Fqpr.subset_variables_by_line fq l0)))] self)),
                   out)).
  { unfold _grid. cbn [points set_points].
    destruct (buffer fq (Fqpr.multibeam_files fq)) as [ | p b]; [now elim Hne | ].
    cbn [map length Nat.ltb Nat.leb multibeam_indexes set_points set_lines].
    unfold bind, lift, ret. cbn [keys map fst add_lines Py.get].
    rewrite String.eqb_refl. eexists. reflexivity. }
  destruct H2 as [g H2].
  split.
  - eexists _, g. unfold bind. rewrite H1, H2. split; reflexivity.
  - unfold run_patch, bind. rewrite H1, H2.
    unfold _build_patch_test_values.
    cbn [grid set_grid multibeam_indexes set_points set_lines].
    reflexivity.
Qed.

(** X6.  With two distinct lines and some non-zero x, the grid stored by
    [_grid] is built by adding first the rotated soundings of line one under
    its name, then those of line two under its name, and gridding: each
    line's layer comes from that line's own soundings. *)
Theorem two_lines_gridded_by_line (self : PatchTest F) (out : list (line F))
    (fq : Fqpr.t F) (az : F) (l1 l2 : string) :
  azimuth self = Some az -> fqpr self = Some fq ->
  Fqpr.multibeam_files fq = [l1; l2] -> l1 <> l2 ->
  Np.any_nonzero (map (@sx F) (buffer fq [l1; l2])) = true ->
  exists self2 mx my,
    bind (_generate_rotated_points self) _grid out = Ok (self2, out)
    /\ min_x self2 = Some mx /\ min_y self2 = Some my
    /\ grid self2
       = Some (grid_points
                 (add_points
                    (add_points create_grid
                       (map (rotated (theta az) mx my) (Fqpr.subset_variables_by_line fq l1))
                       l1 [l1])
                    (map (rotated (theta az) mx my) (Fqpr.subset_variables_by_line fq l2))
                    l2 [l2])).
Proof.
  intros Haz Hfq Ef Hne Hany.
  assert (Hany' : Np.any_nonzero (map (@sx F) (buffer fq (Fqpr.multibeam_files fq))) = true)
    by now rewrite Ef.
  destruct (@rotation_of_points F FF self out fq az Haz Hfq Hany')
    as (mx & my & _ & _ & H1).
  rewrite Ef in H1. rewrite (collect_two_lines fq Hne) in H1.
  pose proof (any_nonzero_nonempty Hany) as Hnb.
  set (d1 := Fqpr.subset_variables_by_line fq l1) in *.
  set (d2 := Fqpr.subset_variables_by_line fq l2) in *.
  assert (Hb : buffer fq [l1; l2] = d1 ++ d2).
  { unfold buffer. simpl. now rewrite app_nil_r. }
  rewrite Hb in *.
  set (rot := rotated (theta az) mx my) in *.
  assert (S1 : slice (map rot (d1 ++ d2)) 0 (length d1) = map rot d1).
  { unfold slice. simpl. rewrite map_app.
    rewrite firstn_app, length_map, Nat.sub_diag. simpl.
    rewrite app_nil_r. rewrite <- (length_map rot d1). apply firstn_all. }
  assert (S2 : slice (map rot (d1 ++ d2)) (length d1) (length d1 + length d2) = map rot d2).
  { unfold slice. rewrite firstn_all2 by (rewrite length_map, length_app; lia).
    rewrite map_app. rewrite <- (length_map rot d1) at 1.
    rewrite skipn_app, skipn_all, Nat.sub_diag. reflexivity. }
  apply String.eqb_neq in Hne.
  destruct (map rot (d1 ++ d2)) as [ | p b] eqn:Hm.
  { destruct (d1 ++ d2); [now elim Hnb | discriminate]. }
  eexists _, mx, my. unfold bind. rewrite H1. unfold _grid.
  cbn [points set_points length Nat.ltb Nat.leb multibeam_indexes set_lines].
  unfold bind, lift, ret. cbn [keys map fst add_lines Py.get].
  rewrite String.eqb_refl, Hne, String.eqb_refl.
  cbn [fst snd]. rewrite S1, S2.
  split; [reflexivity | ]. repeat split.
Qed.

End MoreRuns.

(** ** The initial parameters and the reporter *)

Section ParametersAndReport.

Context {F : Type} {FF : Float F} {BG : Bathygrid F} {LA : Linalg F}.

Local Open Scope string_scope.
Local Open Scope list_scope.

(** The object with other initial parameters. *)
Definition with_parameters (params : dict string F) (self : PatchTest F) : PatchTest F :=
  {| fqpr := fqpr self; azimuth := azimuth self;
     initial_parameters := params;
     multibeam_files := multibeam_files self;
     multibeam_indexes := multibeam_indexes self;
     points := points self; min_x := min_x self; min_y := min_y self;
     grid := grid self; a_matrix := a_matrix self; b_matrix := b_matrix self;
     result := result self |}.

(** The outcome of a method, with the object changed by [f] when it returns. *)
Definition on_return (f : PatchTest F -> PatchTest F)
    (r : outcome (PatchTest F * list (line F))) : outcome (PatchTest F * list (line F)) :=
  match r with
  | Ok (self, out) => Ok (f self, out)
  | Raise e => Raise e
  end.

Ltac by_cases :=
  repeat match goal with
         | |- context [match ?x with _ => _ end] => destruct x
         end;
  try reflexivity.

Lemma rotate_ignores_parameters (params : dict string F) (self : PatchTest F)
    (out : list (line F)) :
  _generate_rotated_points (with_parameters params self) out
  = on_return (with_parameters params) (_generate_rotated_points self out).
Proof.
  unfold _generate_rotated_points, on_return, bind, lift, ret, raise, print.
  cbn [azimuth fqpr with_parameters]. by_cases.
Qed.

Lemma grid_ignores_parameters (params : dict string F) (self : PatchTest F)
    (out : list (line F)) :
  _grid (with_parameters params self) out
  = on_return (with_parameters params) (_grid self out).
Proof.
  unfold _grid, on_return, bind, lift, ret, raise.
  cbn [points multibeam_indexes with_parameters]. by_cases.
Qed.

Lemma build_ignores_parameters (params : dict string F) (self : PatchTest F)
    (out : list (line F)) :
  _build_patch_test_values (with_parameters params self) out
  = on_return (with_parameters params) (_build_patch_test_values self out).
Proof.
  unfold _build_patch_test_values, on_return, bind, lift, ret, raise, print.
  cbn [grid multibeam_indexes multibeam_files with_parameters]. by_cases.
Qed.

Lemma solve_ignores_parameters (params : dict string F) (self : PatchTest F)
    (out : list (line F)) :
  _compute_least_squares (with_parameters params self) out
  = on_return (with_parameters params) (_compute_least_squares self out).
Proof.
  unfold _compute_least_squares, on_return, ret, raise.
  cbn [a_matrix b_matrix with_parameters]. by_cases.
Qed.

(** X8.  The initial parameters are never read by the run: with any other
    mapping in their place [run_patch] raises the same exception or prints
    the same lines and stores the same points, grid, matrices and result. *)
Theorem parameters_never_read (params : dict string F) (self : PatchTest F)
    (out : list (line F)) :
  run_patch (with_parameters params self) out
  = on_return (with_parameters params) (run_patch self out).
Proof.
  unfold run_patch, bind.
  rewrite rotate_ignores_parameters.
  destruct (_generate_rotated_points self out) as [[self1 out1] | e]; [ | reflexivity].
  cbn [on_return]. rewrite grid_ignores_parameters.
  destruct (_grid self1 out1) as [[self2 out2] | e]; [ | reflexivity].
  cbn [on_return]. rewrite build_ignores_parameters.
  destruct (_build_patch_test_values self2 out2) as [[self3 out3] | e]; [ | reflexivity].
  cbn [on_return]. apply solve_ignores_parameters.
Qed.

(** X9.  With a record and a result, the reporter prints the heading, the
    lines of the record and the first six rows of the result under the
    labels roll, pitch, heading, x_translation, y_translation and horizontal
    scale factor, in that order, and returns the object as it was; with a
    result of fewer than six rows it raises IndexError. *)
Theorem display_rows (self : PatchTest F) (out : list (line F))
    (fq : Fqpr.t F) (res : list (list F)) :
  fqpr self = Some fq -> result self = Some res ->
  (forall r0 r1 r2 r3 r4 r5 more,
      res = r0 :: r1 :: r2 :: r3 :: r4 :: r5 :: more ->
      display_results self out
      = Ok (self,
            out ++ [Text "Patch test results";
                    Text ("Lines: " ++ repr_list (Fqpr.multibeam_files fq));
                    Values "roll: " r0; Values "pitch: " r1;
                    Values "heading: " r2; Values "x_translation: " r3;
                    Values "y_translation: " r4;
                    Values "horizontal scale factor: " r5]))
  /\ (length res < 6 -> display_results self out = Raise IndexError).
Proof.
  intros Hfq Hres. unfold display_results. rewrite Hfq, Hres. split.
  - intros r0 r1 r2 r3 r4 r5 more ->.
    unfold bind, print, lift, ret, index. cbn [nth_error].
    rewrite <- !app_assoc. reflexivity.
  - intros Hlen. unfold bind, print, lift, ret, index.
    destruct res as [ | r0 [ | r1 [ | r2 [ | r3 [ | r4 [ | r5 more]]]]]];
      try reflexivity.
    simpl in Hlen. lia.
Qed.

End ParametersAndReport.

(** ** Shapes of the normal equations, and the order of the lines *)

Section NormalEquations.

Context {F : Type} {FF : Float F}.

Local Open Scope string_scope.
Local Open Scope list_scope.

(** The matrices the builder assembles, by cells. *)
Lemma matrices_of_cells (g : Grid.t F)
    (dpth xslope yslope lineone linetwo x_node_locs y_node_locs : list (list F)) :
  Np.same_shape dpth lineone = true ->
  Np.same_shape xslope lineone = true ->
  Np.same_shape yslope lineone = true ->
  Np.same_shape linetwo lineone = true ->
  node_locs g = Ok (x_node_locs, y_node_locs) ->
  Np.same_shape y_node_locs lineone = true ->
  exists valid_index a_matrix l_one_matrix,
    valid_overlap lineone linetwo = Ok valid_index
    /\ Np.ravel valid_index
       = map overlaps (cells dpth xslope yslope y_node_locs lineone linetwo)
    /\ patch_test_matrices g dpth xslope yslope lineone linetwo valid_index
       = Ok (a_matrix, l_one_matrix)
    /\ a_matrix
       = map design_row
           (filter overlaps (cells dpth xslope yslope y_node_locs lineone linetwo))
    /\ l_one_matrix
       = map observation_row
           (filter overlaps (cells dpth xslope yslope y_node_locs lineone linetwo))
    /\ length a_matrix = count_true valid_index
    /\ length l_one_matrix = count_true valid_index.
Proof.
  intros Hd Hx Hy H2 Hloc Hn.
  set (cs := cells dpth xslope yslope y_node_locs lineone linetwo).
  set (m := Np.map2 (Np.map2 andb) (Np.not_isnan lineone) (Np.not_isnan linetwo)).
  destruct (@cells_columns F dpth xslope yslope y_node_locs lineone linetwo
              (length (Np.ravel lineone)))
    as (Cd & Cx & Cy & Cn & C1 & C2);
    try (now apply same_shape_ravel); try reflexivity.
  fold cs in Cd, Cx, Cy, Cn, C1, C2.
  assert (Hm : Np.ravel m = map overlaps cs).
  { unfold m, Np.not_isnan. rewrite ravel_map2.
    - unfold Np.ravel. rewrite <- !concat_map. fold (Np.ravel lineone).
      fold (Np.ravel linetwo). rewrite <- C1, <- C2, !map_map.
      exact (map2_of_maps andb (fun c => negb (isnan (line_one c)))
               (fun c => negb (isnan (line_two c))) cs).
    - now rewrite same_shape_map, same_shape_sym, same_shape_map. }
  assert (Hsel : forall (a : list (list F)) (f : Cell -> F),
             Np.same_shape a lineone = true -> map f cs = Np.ravel a ->
             Np.mask_index a m = Ok (map f (filter overlaps cs))).
  { intros a f Hs Hc. unfold Np.mask_index. unfold m at 1.
    rewrite mask_shape by assumption. rewrite Hs, Hm, <- Hc.
    now rewrite compress_of_maps. }
  assert (H1 : Np.same_shape lineone lineone = true).
  { eapply same_shape_trans; [ | exact H2]. now rewrite same_shape_sym. }
  exists m, (map design_row (filter overlaps cs)),
    (map observation_row (filter overlaps cs)).
  split; [now apply valid_overlap_aligned | ].
  split; [exact Hm | ].
  split.
  - unfold patch_test_matrices, and_then. rewrite Hloc.
    rewrite (Hsel dpth depth Hd Cd), (Hsel y_node_locs node_y Hn Cn),
      (Hsel xslope x_slope Hx Cx), (Hsel yslope y_slope Hy Cy),
      (Hsel lineone line_one H1 C1), (Hsel linetwo line_two H2 C2).
    rewrite !map2_of_maps. cbv beta.
    pose proof (column_stack_of_maps
                  (fun c => fsub (fmul (y_slope c) (depth c)) (node_y c))
                  [fun c => fmul (x_slope c) (depth c);
                   fun c => fmul (x_slope c) (node_y c);
                   x_slope; y_slope;
                   fun c => fmul (y_slope c) (node_y c)]
                  (filter overlaps cs)) as Ka.
    pose proof (column_stack_of_maps line_one [line_two] (filter overlaps cs)) as Kl.
    cbn [map] in Ka, Kl. rewrite Ka, Kl. reflexivity.
  - split; [reflexivity | ]. split; [reflexivity | ].
    assert (Hc : count_true m = length (filter overlaps cs)).
    { unfold count_true. rewrite Hm. clear.
      induction cs as [ | c l IH]; simpl; [reflexivity | ].
      destruct (overlaps c); simpl; now rewrite IH. }
    rewrite !length_map, Hc. split; reflexivity.
Qed.





Lemma cons_col_shape {A} (c : list A) (rows : list (list A)) (k : nat) :
  length c = length rows -> Forall (fun r => length r = k) rows ->
  length (Np.cons_col c rows) = length rows
  /\ Forall (fun r => length r = S k) (Np.cons_col c rows).
Proof.
  revert rows. induction c as [ | v c IH]; intros [ | r rows] Hlen Hall;
    simpl in *; try discriminate; [split; [reflexivity | constructor] | ].
  inversion Hall as [ | ? ? Hr Hrows]; subst.
  destruct (IH rows) as [L1 L2]; [now injection Hlen | assumption | ].
  split; [now rewrite L1 | constructor; [reflexivity | assumption]].
Qed.

Lemma of_columns_shape {A} (n : nat) (cols : list (list A)) :
  Forall (fun c => length c = n) cols ->
  length (Np.of_columns n cols) = n
  /\ Forall (fun r => length r = length cols) (Np.of_columns n cols).
Proof.
  unfold Np.of_columns. induction cols as [ | c cols IH]; intros Hall; simpl.
  - split; [apply repeat_length | ].
    apply Forall_forall. intros r Hin. apply repeat_spec in Hin. now subst.
  - inversion Hall as [ | ? ? Hc Hcols]; subst.
    destruct (IH Hcols) as [L1 L2].
    destruct (@cons_col_shape A c (fold_right Np.cons_col (repeat [] (length c)) cols)
                (length cols)) as [K1 K2]; [now rewrite L1 | assumption | ].
    split; [now rewrite K1 | assumption].
Qed.

Lemma dot_shape (a b : list (list F)) :
  length (Np.dot a b) = length a
  /\ Forall (fun r => length r = length (Np.T b)) (Np.dot a b).
Proof.
  unfold Np.dot. split; [apply length_map | ].
  apply Forall_forall. intros r Hin. apply in_map_iff in Hin.
  destruct Hin as [r0 [<- _]]. apply length_map.
Qed.

Lemma T_shape (rows : list (list F)) (r : list F) (n : nat) :
  hd [] rows = r -> length r = n -> Forall (fun r' => length r' = n) rows ->
  length (Np.T rows) = n
  /\ Forall (fun c => length c = length rows) (Np.T rows).
Proof.
  intros Hhd Hn Hall. unfold Np.T. rewrite Hhd, Hn. now apply of_columns_shape.
Qed.

(** X7.  On a grid whose layers and node mesh share one shape and where some
    cell has a depth on both lines, the builder returns without raising and
    printing, and stores as [a_matrix] a matrix of six rows of six entries
    and as [b_matrix] one of six rows of two entries, however many cells
    overlap. *)
Theorem normal_equations_shape (self : PatchTest F) (out : list (line F))
    (g : Grid.t F) (indexes : dict string (nat * nat)) (l0 l1 : string)
    (more : list string) (x_node_locs y_node_locs : list (list F)) :
  grid self = Some g ->
  multibeam_indexes self = Some indexes -> keys indexes = l0 :: l1 :: more ->
  Np.same_shape (Grid.layers g "depth") (Grid.layers g l0) = true ->
  Np.same_shape (Grid.layers g "x_slope") (Grid.layers g l0) = true ->
  Np.same_shape (Grid.layers g "y_slope") (Grid.layers g l0) = true ->
  Np.same_shape (Grid.layers g l1) (Grid.layers g l0) = true ->
  node_locs g = Ok (x_node_locs, y_node_locs) ->
  Np.same_shape y_node_locs (Grid.layers g l0) = true ->
  existsb overlaps
    (cells (Grid.layers g "depth") (Grid.layers g "x_slope") (Grid.layers g "y_slope")
       y_node_locs (Grid.layers g l0) (Grid.layers g l1)) = true ->
  exists a b,
    _build_patch_test_values self out = Ok (set_matrices a b self, out)
    /\ length a = 6 /\ Forall (fun r => length r = 6) a
    /\ length b = 6 /\ Forall (fun r => length r = 2) b.
Proof.
  intros Hg Hi Hk Hd Hx Hy H2 Hloc Hn Hex.
  destruct (@matrices_of_cells g _ _ _ _ _ _ _ Hd Hx Hy H2 Hloc Hn)
    as (m & A & L & Hv & Hm & Hptm & HA & HL & _ & _).
  set (cs := cells _ _ _ _ _ _) in *.
  assert (Hany : Np.any m = true).
  { unfold Np.any. rewrite Hm. clear - Hex.
    induction cs as [ | c cs IH]; simpl in *; [discriminate | ].
    destruct (overlaps c); simpl in *; [reflexivity | now apply IH]. }
  assert (Hfs : filter overlaps cs <> []).
  { clear - Hex. induction cs as [ | c cs IH]; simpl in *; [discriminate | ].
    destruct (overlaps c); simpl in *; [discriminate | now apply IH]. }
  exists (Np.dot (Np.T A) A), (Np.dot (Np.T A) L).
  split; [now apply (build_stores_normal_equations self out Hg Hi Hk Hv Hany Hptm) | ].
  destruct (filter overlaps cs) as [ | c fs] eqn:Efs; [now elim Hfs | ].
  assert (RA : Forall (fun r => length r = 6) A).
  { rewrite HA. apply Forall_forall. intros r Hin. apply in_map_iff in Hin.
    destruct Hin as [c0 [<- _]]. reflexivity. }
  assert (RL : Forall (fun r => length r = 2) L).
  { rewrite HL. apply Forall_forall. intros r Hin. apply in_map_iff in Hin.
    destruct Hin as [c0 [<- _]]. reflexivity. }
  destruct (@T_shape A (design_row c) 6) as [TA1 TA2];
    [now rewrite HA | reflexivity | assumption | ].
  destruct (@T_shape L (observation_row c) 2) as [TL1 TL2];
    [now rewrite HL | reflexivity | assumption | ].
  destruct (dot_shape (Np.T A) A) as [DA1 DA2].
  destruct (dot_shape (Np.T A) L) as [DL1 DL2].
  rewrite TA1 in DA1, DA2, DL1. rewrite TL1 in DL2.
  repeat split; assumption.
Qed.

End NormalEquations.

Section LineOrder.

Context {F : Type} {FF : Float F}.

Local Open Scope string_scope.
Local Open Scope list_scope.

(** The cell read with the two lines exchanged. *)
Definition swap_lines (c : @Cell F) : @Cell F :=
  {| depth := depth c; x_slope := x_slope c; y_slope := y_slope c;
     node_y := node_y c; line_one := line_two c; line_two := line_one c |}.

Lemma cells_ext (a b : list (@Cell F)) :
  map depth a = map depth b -> map x_slope a = map x_slope b ->
  map y_slope a = map y_slope b -> map node_y a = map node_y b ->
  map line_one a = map line_one b -> map line_two a = map line_two b ->
  a = b.
Proof.
  revert b. induction a as [ | [d xs ys ny l1 l2] a IH];
    intros [ | [d' xs' ys' ny' l1' l2'] b] H1 H2 H3 H4 H5 H6;
    simpl in *; try discriminate; [reflexivity | ].
  injection H1 as -> H1. injection H2 as -> H2. injection H3 as -> H3.
  injection H4 as -> H4. injection H5 as -> H5. injection H6 as -> H6.
  f_equal. now apply IH.
Qed.

Lemma cells_swapped (dpth xslope yslope y_node lineone linetwo : list (list F)) (n : nat) :
  length (Np.ravel dpth) = n -> length (Np.ravel xslope) = n ->
  length (Np.ravel yslope) = n -> length (Np.ravel y_node) = n ->
  length (Np.ravel lineone) = n -> length (Np.ravel linetwo) = n ->
  cells dpth xslope yslope y_node linetwo lineone
  = map swap_lines (cells dpth xslope yslope y_node lineone linetwo).
Proof.
  intros H1 H2 H3 H4 H5 H6.
  destruct (@cells_columns F dpth xslope yslope y_node lineone linetwo n)
    as (Cd & Cx & Cy & Cn & C1 & C2); try assumption.
  destruct (@cells_columns F dpth xslope yslope y_node linetwo lineone n)
    as (Sd & Sx & Sy & Sn & S1 & S2); try assumption.
  cbv zeta in *.
  apply cells_ext; rewrite map_map;
    cbn [swap_lines depth x_slope y_slope node_y line_one line_two].
  - rewrite Sd. symmetry. exact Cd.
  - rewrite Sx. symmetry. exact Cx.
  - rewrite Sy. symmetry. exact Cy.
  - rewrite Sn. symmetry. exact Cn.
  - rewrite S1. symmetry. exact C2.
  - rewrite S2. symmetry. exact C1.
Qed.

Lemma map2_comm {A B} (f : A -> A -> B) (a b : list A) :
  (forall x y, f x y = f y x) -> Np.map2 f a b = Np.map2 f b a.
Proof.
  intros Hf. revert b. induction a as [ | x a IH]; intros [ | y b]; simpl;
    try reflexivity.
  now rewrite Hf, IH.
Qed.

Lemma filter_swapped (cs : list (@Cell F)) :
  filter overlaps (map swap_lines cs) = map swap_lines (filter overlaps cs).
Proof.
  induction cs as [ | c cs IH]; simpl; [reflexivity | ].
  assert (E : overlaps (swap_lines c) = overlaps c) by apply andb_comm.
  rewrite E. destruct (overlaps c); simpl; now rewrite IH.
Qed.

(** X10.  Exchanging the two lines leaves the valid-overlap mask and the
    design matrix as they are and exchanges the two columns of the
    observation matrix. *)
Theorem line_order_swaps_columns (g : Grid.t F)
    (dpth xslope yslope lineone linetwo x_node_locs y_node_locs : list (list F)) :
  Np.same_shape dpth lineone = true ->
  Np.same_shape xslope lineone = true ->
  Np.same_shape yslope lineone = true ->
  Np.same_shape linetwo lineone = true ->
  node_locs g = Ok (x_node_locs, y_node_locs) ->
  Np.same_shape y_node_locs lineone = true ->
  exists valid_index a_matrix l_one_matrix,
    valid_overlap lineone linetwo = Ok valid_index
    /\ valid_overlap linetwo lineone = Ok valid_index
    /\ patch_test_matrices g dpth xslope yslope lineone linetwo valid_index
       = Ok (a_matrix, l_one_matrix)
    /\ patch_test_matrices g dpth xslope yslope linetwo lineone valid_index
       = Ok (a_matrix, map (@rev F) l_one_matrix).
Proof.
  intros Hd Hx Hy H2 Hloc Hn.
  assert (H2' : Np.same_shape lineone linetwo = true)
    by now rewrite same_shape_sym.
  assert (Hd' : Np.same_shape dpth linetwo = true)
    by (eapply same_shape_trans; eassumption).
  assert (Hx' : Np.same_shape xslope linetwo = true)
    by (eapply same_shape_trans; eassumption).
  assert (Hy' : Np.same_shape yslope linetwo = true)
    by (eapply same_shape_trans; eassumption).
  assert (Hn' : Np.same_shape y_node_locs linetwo = true)
    by (eapply same_shape_trans; eassumption).
  destruct (@matrices_of_cells F FF g _ _ _ _ _ _ _ Hd Hx Hy H2 Hloc Hn)
    as (m & A & L & Hv & _ & Hptm & HA & HL & _ & _).
  destruct (@matrices_of_cells F FF g _ _ _ _ _ _ _ Hd' Hx' Hy' H2' Hloc Hn')
    as (m' & A' & L' & Hv' & _ & Hptm' & HA' & HL' & _ & _).
  assert (Em : m' = m).
  { rewrite valid_overlap_aligned in Hv, Hv' by assumption.
    injection Hv as <-. injection Hv' as <-.
    apply map2_comm. intros r s. apply map2_comm. apply andb_comm. }
  subst m'.
  rewrite (@cells_swapped dpth xslope yslope y_node_locs lineone linetwo
             (length (Np.ravel lineone))) in HA', HL';
    try (now apply same_shape_ravel); try reflexivity.
  rewrite filter_swapped, map_map in HA', HL'.
  exists m, A, L. repeat (split; [assumption | ]).
  rewrite Hptm'. f_equal. f_equal.
  - rewrite HA', HA. reflexivity.
  - rewrite HL', HL, map_map. reflexivity.
Qed.

End LineOrder.

(** * GDAL helpers: a shallow embedding of [HSTB/kluster/gdal_helpers.py] *)

From Stdlib Require Import DecimalString.

(** ** Python's [int] and [str.format] on integers *)

(** The value of a non-empty string of ASCII decimal digits. *)
Definition decimal (s : string) : option Z :=
  match s with
  | EmptyString => None
  | _ => option_map Z.of_uint (NilEmpty.uint_of_string s)
  end.

(** Python's built-in [int] on a string.  It is specified where the helpers
    use it, on strings of decimal digits; what it does on other strings
    (blanks, signs, underscores, other digits) is left open. *)
Class Builtins : Type := {
  py_int : string -> outcome Z;
  py_int_decimal : forall s z, decimal s = Some z -> py_int s = Ok z
}.

(** ['{}'.format(n)] for an integer [n]. *)
Definition format_int (n : Z) : string := NilZero.string_of_int (Z.to_int n).

(** [s[i]] for a string: the character at [i] as a string. *)
Definition getitem (s : string) (i : nat) : outcome string :=
  match String.get i s with
  | Some c => Ok (String c EmptyString)
  | None => Raise IndexError
  end.

(** [s[a:b]] for a string and non-negative bounds. *)
Definition str_slice (s : string) (a b : nat) : string := substring a (b - a) s.

(** ** [return_gdal_version] *)

Section GdalVersion.

Context {PB : Builtins}.

Local Open Scope string_scope.

(** The three numbers [maj], [min] and [hfix] that [return_gdal_version]
    reads from [vers = gdal.VersionInfo()]. *)
Definition gdal_version_numbers (vers : string) : outcome (Z * Z * Z) :=
  let maj := str_slice vers 0 2 in
  and_then (getitem maj 1) (fun maj1 =>
  and_then (if String.eqb maj1 "0"
            then and_then (getitem maj 0) py_int
            else py_int maj) (fun maj =>
  let min := str_slice vers 2 4 in
  and_then (getitem min 1) (fun min1 =>
  and_then (if String.eqb min1 "0"
            then and_then (getitem min 0) py_int
            else py_int min) (fun min =>
  let hfix := str_slice vers 4 8 in
  and_then (getitem hfix 2) (fun hfix2 =>
  and_then (if String.eqb hfix2 "0"
            then
              and_then (getitem hfix 1) (fun hfix1 =>
              if String.eqb hfix1 "0"
              then and_then (getitem hfix 0) py_int
              else py_int (str_slice hfix 0 1))
            else py_int (str_slice hfix 0 2)) (fun hfix =>
  Ok (maj, min, hfix))))))).

(** [return_gdal_version], as a function of what [gdal.VersionInfo()]
    returns. *)
Definition return_gdal_version (vers : string) : outcome string :=
  and_then (gdal_version_numbers vers) (fun numbers =>
  let '(maj, min, hfix) := numbers in
  Ok (format_int maj ++ "." ++ format_int min ++ "." ++ format_int hfix)).

End GdalVersion.

(** An implementation of [int] that accepts the strings of decimal digits
    and raises ValueError on every other string; for the concrete runs. *)
Definition digits_int (s : string) : outcome Z :=
  match decimal s with
  | Some z => Ok z
  | None => Raise (ValueError "invalid literal for int() with base 10")
  end.

Lemma digits_int_decimal (s : string) (z : Z) :
  decimal s = Some z -> digits_int s = Ok z.
Proof. unfold digits_int. now intros ->. Qed.

#[export] Instance digits_only : Builtins := {|
  py_int := digits_int;
  py_int_decimal := digits_int_decimal
|}.

Section GdalVersionFacts.

Context {PB : Builtins}.

Local Open Scope string_scope.
Local Open Scope Z_scope.

Definition is_digit (c : ascii) : bool :=
  (48 <=? nat_of_ascii c)%nat && (nat_of_ascii c <=? 57)%nat.

Fixpoint all_digits (s : string) : bool :=
  match s with
  | EmptyString => true
  | String c s' => is_digit c && all_digits s'
  end.

(** The value of a digit character. *)
Definition dval (c : ascii) : Z := Z.of_nat (nat_of_ascii c - 48).

Lemma digit_cases (c : ascii) :
  is_digit c = true ->
  c = "0"%char \/ c = "1"%char \/ c = "2"%char \/ c = "3"%char \/ c = "4"%char
  \/ c = "5"%char \/ c = "6"%char \/ c = "7"%char \/ c = "8"%char \/ c = "9"%char.
Proof.
  destruct c as [[ | ] [ | ] [ | ] [ | ] [ | ] [ | ] [ | ] [ | ]];
    intros H; try discriminate H; tauto.
Qed.

Ltac digit c H :=
  destruct (digit_cases c H) as [-> | [-> | [-> | [-> | [-> | [-> | [-> | [-> | [-> | ->]]]]]]]]].

Lemma decimal_one (a : ascii) :
  is_digit a = true -> decimal (String a EmptyString) = Some (dval a).
Proof. intros Ha. digit a Ha; reflexivity. Qed.

Lemma decimal_two (a b : ascii) :
  is_digit a = true -> is_digit b = true ->
  decimal (String a (String b EmptyString)) = Some (10 * dval a + dval b).
Proof. intros Ha Hb. digit a Ha; digit b Hb; reflexivity. Qed.

Lemma format_digit (a : ascii) :
  is_digit a = true -> format_int (dval a) = String a EmptyString.
Proof. intros Ha. digit a Ha; reflexivity. Qed.

Lemma py_int_one (a : ascii) :
  is_digit a = true -> py_int (String a EmptyString) = Ok (dval a).
Proof. intros Ha. apply py_int_decimal. now apply decimal_one. Qed.

Lemma py_int_two (a b : ascii) :
  is_digit a = true -> is_digit b = true ->
  py_int (String a (String b EmptyString)) = Ok (10 * dval a + dval b).
Proof. intros Ha Hb. apply py_int_decimal. now apply decimal_two. Qed.

(** The numbers read from a version string of at least seven characters. *)
Lemma version_numbers_read (a b c d e f g : ascii) (more : string) :
  is_digit a = true -> is_digit b = true -> is_digit c = true ->
  is_digit d = true -> is_digit e = true ->
  (g = "0"%char \/ is_digit f = true) ->
  gdal_version_numbers
    (String a (String b (String c (String d (String e (String f (String g more)))))))
  = Ok (if Ascii.eqb b "0" then dval a else 10 * dval a + dval b,
        if Ascii.eqb d "0" then dval c else 10 * dval c + dval d,
        if Ascii.eqb g "0" then dval e else 10 * dval e + dval f).
Proof.
  intros Ha Hb Hc Hd He Hfg.
  unfold gdal_version_numbers, str_slice, getitem, and_then.
  cbn [substring String.get Nat.sub String.eqb].
  destruct (Ascii.eqb b "0");
    [rewrite py_int_one by assumption | rewrite py_int_two by assumption];
    (destruct (Ascii.eqb d "0");
     [rewrite py_int_one by assumption | rewrite py_int_two by assumption]);
    (destruct (Ascii.eqb g "0") eqn:Eg;
     [ destruct (Ascii.eqb f "0"); now rewrite py_int_one
     | destruct Hfg as [-> | Hf]; [discriminate Eg | now rewrite py_int_two] ]).
Qed.

(** X15.  On a version string that starts with seven digits, the three
    numbers are read as follows: the major is the first digit when the second
    is 0 and the first two digits otherwise; the minor is the third digit
    when the fourth is 0 and digits three and four otherwise; the hotfix is
    the fifth digit when the seventh is 0 and digits five and six otherwise.
    The string returned joins them with dots. *)
Theorem version_numbers_of_digits (a b c d e f g : ascii) (more : string) :
  is_digit a = true -> is_digit b = true -> is_digit c = true ->
  is_digit d = true -> is_digit e = true -> is_digit f = true ->
  is_digit g = true ->
  let vers := String a (String b (String c (String d (String e (String f (String g more)))))) in
  let maj := if Ascii.eqb b "0" then dval a else 10 * dval a + dval b in
  let min := if Ascii.eqb d "0" then dval c else 10 * dval c + dval d in
  let hfix := if Ascii.eqb g "0" then dval e else 10 * dval e + dval f in
  gdal_version_numbers vers = Ok (maj, min, hfix)
  /\ return_gdal_version vers
     = Ok (format_int maj ++ "." ++ format_int min ++ "." ++ format_int hfix)
  /\ 0 <= maj <= 99 /\ 0 <= min <= 99 /\ 0 <= hfix <= 99.
Proof.
  intros Ha Hb Hc Hd He Hf Hg. cbv zeta.
  pose proof (@version_numbers_read a b c d e f g more Ha Hb Hc Hd He (or_intror Hf)) as H.
  split; [exact H | ]. split; [unfold return_gdal_version; now rewrite H | ].
  assert (R : forall x, is_digit x = true -> 0 <= dval x <= 9).
  { intros x Hx. digit x Hx; cbv; split; discriminate. }
  pose proof (R a Ha). pose proof (R b Hb). pose proof (R c Hc).
  pose proof (R d Hd). pose proof (R e He). pose proof (R f Hf).
  destruct (Ascii.eqb b "0"), (Ascii.eqb d "0"), (Ascii.eqb g "0"); lia.
Qed.

(** X13.  A version string whose first, third and fifth characters are
    digits and whose second, fourth and seventh characters are 0 is
    reported as those three digits joined by dots (as '3000400' is
    reported as '3.0.4'), whatever the sixth character and whatever
    follows the seventh. *)
Theorem version_of_single_digits (a c e f : ascii) (more : string) :
  is_digit a = true -> is_digit c = true -> is_digit e = true ->
  return_gdal_version
    (String a (String "0" (String c (String "0" (String e (String f (String "0" more)))))))
  = Ok (String a (String "." (String c (String "." (String e EmptyString))))).
Proof.
  intros Ha Hc He. unfold return_gdal_version.
  rewrite (@version_numbers_read a "0" c "0" e f "0" more)
    by (assumption || reflexivity || (left; reflexivity)).
  cbn [and_then Ascii.eqb Bool.eqb].
  rewrite !format_digit by assumption. reflexivity.
Qed.

(** X14.  On a string of fewer than seven digits, the empty string
    included, [return_gdal_version] raises IndexError. *)
Theorem short_version_raises (vers : string) :
  all_digits vers = true -> (String.length vers < 7)%nat ->
  return_gdal_version vers = Raise IndexError.
Proof.
  intros Hd Hlen.
  unfold return_gdal_version, gdal_version_numbers, str_slice, getitem, and_then.
  destruct vers as [ | a [ | b [ | c [ | d [ | e [ | f [ | g more]]]]]]];
    cbn [all_digits] in Hd;
    try (simpl in Hlen; lia);
    repeat (apply andb_prop in Hd; let H := fresh "D" in destruct Hd as [H Hd]);
    cbn [substring String.get Nat.sub String.eqb];
    repeat match goal with
           | |- context [if Ascii.eqb ?x ?y then _ else _] => destruct (Ascii.eqb x y)
           end;
    rewrite ?py_int_one, ?py_int_two by assumption; reflexivity.
Qed.

End GdalVersionFacts.

(** ** [pyproj_crs_to_osgeo] and [gdal_create] *)

(** What the helpers use of pyproj and osgeo: the major version of the
    osgeo bindings, [CRS.from_epsg], [CRS.to_wkt] with and without
    [WktVersion.WKT1_GDAL], and a [SpatialReference] with its two methods. *)
Class Osgeo (CRS SR : Type) : Type := {
  version_info_major : nat;
  from_epsg : Z -> CRS;
  to_wkt : CRS -> string;
  to_wkt1_gdal : CRS -> string;
  SpatialReference : SR;
  ImportFromWkt : SR -> string -> SR;
  ExportToWkt : SR -> string
}.

(** A call made on GDAL: on the module, on the driver, on the dataset or on
    a raster band, which is named by its number.  [Create] leaves out the
    data type, which is always [gdal.GDT_Float32]. *)
Inductive gdal_call (F : Type) : Type :=
| GetDriverByName (driver : string)
| Create (output_raster : string) (xsize ysize bands : nat) (options : list string)
| SetGeoTransform (geo_transform : list F)
| SetProjection (wkt : string)
| GetRasterBand (band : nat)
| SetDescription (band : nat) (name : string)
| WriteArray (band : nat) (array : list (list F))
| SetNoDataValue (band : nat) (value : F).

Arguments GetDriverByName {F} driver.
Arguments Create {F} output_raster xsize ysize bands options.
Arguments SetGeoTransform {F} geo_transform.
Arguments SetProjection {F} wkt.
Arguments GetRasterBand {F} band.
Arguments SetDescription {F} band name.
Arguments WriteArray {F} band array.
Arguments SetNoDataValue {F} band value.

Section GdalCreate.

Context {F : Type} {CRS SR : Type} {OS : Osgeo CRS SR}.

Local Open Scope string_scope.
Local Open Scope list_scope.

(** [pyproj_crs_to_osgeo]: the argument is a pyproj CRS or an integer EPSG
    code. *)
Definition pyproj_crs_to_osgeo (proj_crs : CRS + Z) : SR :=
  let proj_crs :=
    match proj_crs with
    | inr code => from_epsg code
    | inl crs => crs
    end in
  let osr_crs := SpatialReference in
  if Nat.ltb version_info_major 3
  then ImportFromWkt osr_crs (to_wkt1_gdal proj_crs)
  else ImportFromWkt osr_crs (to_wkt proj_crs).

(** The calls made on GDAL so far, each taken to return, and how the Python
    code went on: to its end or to an exception of its own. *)
Definition traced (A : Type) : Type := list (gdal_call F) * outcome A.

(** The body of [for cnt, d in enumerate(data)]. *)
Definition write_band (bandnames : list string) (driver : string) (transpose : bool)
    (nodatavalue : F) (cnt : nat) (d : list (list F)) : traced unit :=
  let rband := cnt + 1 in
  match (match bandnames with
         | [] => Ok []
         | _ :: _ =>
             match index bandnames cnt with
             | Ok name => Ok [SetDescription rband name]
             | Raise e => Raise e
             end
         end) with
  | Raise e => ([GetRasterBand rband], Raise e)
  | Ok described =>
      let d := if transpose then Np.T d else d in
      ([GetRasterBand rband] ++ described ++ [WriteArray rband d]
         ++ (if negb (String.eqb driver "GTiff")
             then [SetNoDataValue rband nodatavalue] else []),
       Ok tt)
  end.

Fixpoint write_bands (bandnames : list string) (driver : string) (transpose : bool)
    (nodatavalue : F) (cnt : nat) (data : list (list (list F))) : traced unit :=
  match data with
  | [] => ([], Ok tt)
  | d :: data' =>
      match write_band bandnames driver transpose nodatavalue cnt d with
      | (calls, Raise e) => (calls, Raise e)
      | (calls, Ok _) =>
          let '(calls', r) :=
            write_bands bandnames driver transpose nodatavalue (S cnt) data' in
          (calls ++ calls', r)
      end
  end.

(** [gdal_create] *)
Definition gdal_create (output_raster : string) (data : list (list (list F)))
    (geo_transform : list F) (crs : CRS + Z) (nodatavalue : F)
    (bandnames : list string) (driver : string) (transpose : bool)
    (creation_options : list string) : traced unit :=
  let srs := pyproj_crs_to_osgeo crs in
  match data with
  | [] => ([GetDriverByName driver], Raise IndexError)
  | d0 :: _ =>
      let '(cols, rows) := shape d0 in
      let no_bands := length data in
      let opened :=
        [GetDriverByName driver;
         Create output_raster cols rows no_bands creation_options;
         SetGeoTransform geo_transform;
         SetProjection (ExportToWkt srs)] in
      match write_bands bandnames driver transpose nodatavalue 0 data with
      | (calls, Raise e) => (opened ++ calls, Raise e)
      | (calls, Ok _) =>
          (opened ++ calls
             ++ (if String.eqb driver "GTiff"
                 then [GetRasterBand 1; SetNoDataValue 1 nodatavalue] else []),
           Ok tt)
      end
  end.

End GdalCreate.

Section GdalCreateFacts.

Context {F : Type} {CRS SR : Type} {OS : Osgeo CRS SR}.

Local Open Scope string_scope.
Local Open Scope list_scope.

Definition is_write (c : gdal_call F) : bool :=
  match c with WriteArray _ _ => true | _ => false end.

Definition is_nodata (c : gdal_call F) : bool :=
  match c with SetNoDataValue _ _ => true | _ => false end.

Definition is_description (c : gdal_call F) : bool :=
  match c with SetDescription _ _ => true | _ => false end.

(** [enumerate(data)], counting from [cnt]. *)
Definition enumerate_from {A} (cnt : nat) (data : list A) : list (nat * A) :=
  combine (seq cnt (length data)) data.

(** The array handed to [WriteArray] for the array [d]. *)
Definition written (transpose : bool) (d : list (list F)) : list (list F) :=
  if transpose then Np.T d else d.

Section Bands.

Variables (bandnames : list string) (driver : string) (transpose : bool)
          (nodatavalue : F).

Lemma write_band_returns (cnt : nat) (d : list (list F)) :
  bandnames = [] \/ cnt < length bandnames ->
  exists calls,
    write_band bandnames driver transpose nodatavalue cnt d = (calls, Ok tt)
    /\ filter is_write calls = [WriteArray (cnt + 1) (written transpose d)]
    /\ filter is_nodata calls
       = (if String.eqb driver "GTiff" then []
          else [SetNoDataValue (cnt + 1) nodatavalue])
    /\ filter is_description calls
       = match bandnames with
         | [] => []
         | _ :: _ => [SetDescription (cnt + 1) (nth cnt bandnames "")]
         end.
Proof.
  intros Hb. unfold write_band, index.
  destruct bandnames as [ | b0 bs] eqn:Eb.
  - eexists. split; [reflexivity | ].
    destruct (String.eqb driver "GTiff"); repeat split.
  - destruct Hb as [Hb | Hb]; [discriminate | ].
    destruct (nth_error (b0 :: bs) cnt) as [name | ] eqn:En.
    + rewrite (nth_error_nth _ _ "" En).
      eexists. split; [reflexivity | ].
      destruct (String.eqb driver "GTiff"); repeat split.
    + apply nth_error_None in En. lia.
Qed.

Lemma write_bands_return (data : list (list (list F))) :
  forall cnt,
    bandnames = [] \/ cnt + length data <= length bandnames ->
    exists calls,
      write_bands bandnames driver transpose nodatavalue cnt data = (calls, Ok tt)
      /\ filter is_write calls
         = map (fun kd => WriteArray (fst kd + 1) (written transpose (snd kd)))
             (enumerate_from cnt data)
      /\ filter is_nodata calls
         = (if String.eqb driver "GTiff" then []
            else map (fun k => SetNoDataValue (k + 1) nodatavalue)
                   (seq cnt (length data)))
      /\ filter is_description calls
         = match bandnames with
           | [] => []
           | _ :: _ => map (fun k => SetDescription (k + 1) (nth k bandnames ""))
                         (seq cnt (length data))
           end.
Proof.
  induction data as [ | d data IH]; intros cnt Hb.
  - exists []. split; [reflexivity | ].
    destruct (String.eqb driver "GTiff"), bandnames; repeat split.
  - destruct (@write_band_returns cnt d) as (c1 & E1 & W1 & N1 & D1).
    { destruct Hb as [Hb | Hb]; [now left | right; simpl in Hb; lia]. }
    destruct (IH (S cnt)) as (c2 & E2 & W2 & N2 & D2).
    { destruct Hb as [Hb | Hb]; [now left | right; simpl in Hb; lia]. }
    exists (c1 ++ c2). cbn [write_bands]. rewrite E1, E2.
    split; [reflexivity | ]. rewrite !filter_app, W1, W2, N1, N2, D1, D2.
    unfold enumerate_from. cbn [length seq combine map fst snd].
    destruct (String.eqb driver "GTiff"), bandnames; repeat split.
Qed.

End Bands.

(** X16.  With at least one array, and band names either absent or as many
    as the arrays at least, [gdal_create] runs to its end; for the driver
    'GTiff' the no-data value is set once, on band 1, as the last call, and
    for any other driver it is set once on every band, 1 to [len(data)]. *)
Theorem nodata_per_driver (output_raster : string) (data : list (list (list F)))
    (geo_transform : list F) (crs : CRS + Z) (nodatavalue : F)
    (bandnames : list string) (driver : string) (transpose : bool)
    (creation_options : list string) :
  data <> [] ->
  bandnames = [] \/ length data <= length bandnames ->
  exists calls,
    gdal_create output_raster data geo_transform crs nodatavalue bandnames driver
      transpose creation_options = (calls, Ok tt)
    /\ (String.eqb driver "GTiff" = true ->
        filter is_nodata calls = [SetNoDataValue 1 nodatavalue]
        /\ exists before, calls = before ++ [SetNoDataValue 1 nodatavalue])
    /\ (String.eqb driver "GTiff" = false ->
        filter is_nodata calls
        = map (fun k => SetNoDataValue (k + 1) nodatavalue) (seq 0 (length data))).
Proof.
  intros Hne Hb. unfold gdal_create.
  destruct data as [ | d0 data']; [now elim Hne | ].
  destruct (shape d0) as [cols rows].
  destruct (@write_bands_return bandnames driver transpose nodatavalue (d0 :: data') 0 Hb)
    as (cb & Eb & _ & Nb & _).
  rewrite Eb. eexists. split; [reflexivity | ].
  split; intros Hd; rewrite Hd in *.
  - split.
    + cbn [app filter is_nodata]. rewrite filter_app, Nb. reflexivity.
    + eexists. rewrite !app_assoc.
      change [GetRasterBand 1; SetNoDataValue 1 nodatavalue]
        with ([@GetRasterBand F 1] ++ [SetNoDataValue 1 nodatavalue]).
      rewrite !app_assoc. reflexivity.
  - cbn [app filter is_nodata]. rewrite app_nil_r. exact Nb.
Qed.

(** X17.  In such a run the first calls look up the driver, create the
    raster with the two dimensions of the first array as x and y size and
    [len(data)] bands, and set the geotransform and the projection exported
    from the converted CRS; then every array is written exactly once, array
    [cnt] to band [cnt + 1], transposed when [transpose] is set; with band
    names, band [cnt + 1] is described by [bandnames[cnt]], names beyond
    [len(data)] being unused. *)
Theorem bands_written_in_order (output_raster : string) (data : list (list (list F)))
    (geo_transform : list F) (crs : CRS + Z) (nodatavalue : F)
    (bandnames : list string) (driver : string) (transpose : bool)
    (creation_options : list string) (d0 : list (list F)) (more : list (list (list F))) :
  data = d0 :: more ->
  bandnames = [] \/ length data <= length bandnames ->
  exists calls,
    gdal_create output_raster data geo_transform crs nodatavalue bandnames driver
      transpose creation_options
    = (GetDriverByName driver
         :: Create output_raster (length d0) (length (hd [] d0)) (length data)
              creation_options
         :: SetGeoTransform geo_transform
         :: SetProjection (ExportToWkt (pyproj_crs_to_osgeo crs))
         :: calls,
       Ok tt)
    /\ filter is_write calls
       = map (fun kd => WriteArray (fst kd + 1) (written transpose (snd kd)))
           (enumerate_from 0 data)
    /\ filter is_description calls
       = match bandnames with
         | [] => []
         | _ :: _ => map (fun k => SetDescription (k + 1) (nth k bandnames ""))
                       (seq 0 (length data))
         end.
Proof.
  intros -> Hb. unfold gdal_create. unfold shape.
  destruct (@write_bands_return bandnames driver transpose nodatavalue (d0 :: more) 0 Hb)
    as (cb & Eb & Wb & _ & Db).
  rewrite Eb. eexists. split; [reflexivity | ].
  rewrite !filter_app, Wb, Db.
  destruct (String.eqb driver "GTiff"); cbn [filter is_write is_description];
    rewrite !app_nil_r; split; reflexivity.
Qed.

End GdalCreateFacts.

Section GdalCreateEdges.

Context {F : Type} {CRS SR : Type} {OS : Osgeo CRS SR}.

Local Open Scope string_scope.
Local Open Scope list_scope.

Lemma write_bands_raise (bandnames : list string) (driver : string)
    (transpose : bool) (nodatavalue : F) (data : list (list (list F))) :
  bandnames <> [] ->
  forall cnt,
    cnt <= length bandnames -> length bandnames < cnt + length data ->
    exists calls,
      write_bands bandnames driver transpose nodatavalue cnt data
      = (calls, Raise IndexError)
      /\ filter is_write calls
         = map (fun kd => WriteArray (fst kd + 1) (written transpose (snd kd)))
             (enumerate_from cnt (firstn (length bandnames - cnt) data))
      /\ (String.eqb driver "GTiff" = true -> filter is_nodata calls = []).
Proof.
  intros Hne. induction data as [ | d data IH]; intros cnt Hle Hlt.
  - simpl in Hlt. lia.
  - destruct (Nat.eq_dec cnt (length bandnames)) as [-> | Hneq].
    + cbn [write_bands]. unfold write_band, index.
      destruct bandnames as [ | b0 bs] eqn:Eb; [now elim Hne | ].
      rewrite (proj2 (nth_error_None (b0 :: bs) (length (b0 :: bs)))) by lia.
      eexists. split; [reflexivity | ].
      rewrite Nat.sub_diag. split; [reflexivity | intros _; reflexivity].
    + destruct (@write_band_returns F bandnames driver transpose nodatavalue cnt d)
        as (c1 & E1 & W1 & N1 & _); [right; lia | ].
      destruct (IH (S cnt)) as (c2 & E2 & W2 & N2); [lia | simpl in Hlt; lia | ].
      exists (c1 ++ c2). cbn [write_bands]. rewrite E1, E2.
      split; [reflexivity | ]. rewrite !filter_app, W1, W2, N1.
      replace (length bandnames - cnt) with (S (length bandnames - S cnt)) by lia.
      split.
      * unfold enumerate_from. cbn [firstn length seq combine map fst snd app].
        reflexivity.
      * intros Hd. rewrite Hd. now apply N2.
Qed.

(** X18.  Without any array [gdal_create] raises IndexError after it has
    looked up the driver and before it creates anything.  With band names
    that are fewer than the arrays it creates the raster, writes the bands
    that have a name and raises IndexError at the first band without one;
    for the driver 'GTiff' no no-data value has been set by then. *)
Theorem create_raises (output_raster : string) (data : list (list (list F)))
    (geo_transform : list F) (crs : CRS + Z) (nodatavalue : F)
    (bandnames : list string) (driver : string) (transpose : bool)
    (creation_options : list string) :
  (data = [] ->
   gdal_create output_raster data geo_transform crs nodatavalue bandnames driver
     transpose creation_options = ([GetDriverByName driver], Raise IndexError))
  /\ (bandnames <> [] -> length bandnames < length data ->
      exists calls,
        gdal_create output_raster data geo_transform crs nodatavalue bandnames driver
          transpose creation_options = (calls, Raise IndexError)
        /\ In (Create output_raster (fst (shape (hd [] data))) (snd (shape (hd [] data)))
                 (length data) creation_options) calls
        /\ filter is_write calls
           = map (fun kd => WriteArray (fst kd + 1) (written transpose (snd kd)))
               (enumerate_from 0 (firstn (length bandnames) data))
        /\ (String.eqb driver "GTiff" = true -> filter is_nodata calls = [])).
Proof.
  split.
  - intros ->. reflexivity.
  - intros Hne Hlt. unfold gdal_create.
    destruct data as [ | d0 data']; [simpl in Hlt; lia | ].
    cbn [hd]. destruct (shape d0) as [cols rows] eqn:Es.
    destruct (@write_bands_raise bandnames driver transpose nodatavalue (d0 :: data')
                Hne 0 (Nat.le_0_l _)) as (cb & Eb & Wb & Nb); [exact Hlt | ].
    rewrite Eb. eexists. split; [reflexivity | ].
    split; [simpl; tauto | ].
    rewrite !filter_app, Wb, Nat.sub_0_r.
    split; [reflexivity | ]. intros Hd. now rewrite (Nb Hd).
Qed.

(** An array of [r] rows of [c] entries. *)
Definition has_shape (r c : nat) (a : list (list F)) : Prop :=
  length a = r /\ Forall (fun row => length row = c) a.

Lemma transposed_shape (r c : nat) (a : list (list F)) :
  1 <= r -> has_shape r c a -> has_shape c r (Np.T a).
Proof.
  intros Hr [Hlen Hrows]. unfold has_shape.
  destruct a as [ | row a]; [simpl in Hlen; lia | ].
  inversion Hrows as [ | ? ? Hrow Hrest]; subst.
  destruct (@T_shape F (row :: a) row (length row) eq_refl eq_refl Hrows) as [T1 T2].
  split; assumption.
Qed.

(** X19.  When every array has [cols] rows of [rows] entries (both at
    least 1) and [transpose] is set, the raster is created with x size
    [cols] and y size [rows] and every array written has [rows] rows of
    [cols] entries; when [transpose] is not set the arrays are written as
    given, [cols] rows of [rows] entries. *)
Theorem written_arrays_shape (output_raster : string) (data : list (list (list F)))
    (geo_transform : list F) (crs : CRS + Z) (nodatavalue : F)
    (bandnames : list string) (driver : string) (transpose : bool)
    (creation_options : list string) (cols rows : nat) :
  data <> [] -> 1 <= cols -> 1 <= rows ->
  Forall (has_shape cols rows) data ->
  bandnames = [] \/ length data <= length bandnames ->
  exists calls,
    gdal_create output_raster data geo_transform crs nodatavalue bandnames driver
      transpose creation_options = (calls, Ok tt)
    /\ In (Create output_raster cols rows (length data) creation_options) calls
    /\ forall band array,
        In (WriteArray band array) calls ->
        if transpose then has_shape rows cols array else has_shape cols rows array.
Proof.
  intros Hne Hc Hr Hall Hb. unfold gdal_create.
  destruct data as [ | d0 data']; [now elim Hne | ].
  assert (Hs : shape d0 = (cols, rows)).
  { inversion Hall as [ | ? ? [Hlen Hrows] _]; subst. unfold shape.
    destruct d0 as [ | row d0]; [simpl in Hc; lia | ].
    inversion Hrows; subst. reflexivity. }
  rewrite Hs.
  destruct (@write_bands_return F bandnames driver transpose nodatavalue (d0 :: data') 0 Hb)
    as (cb & Eb & Wb & _ & _).
  rewrite Eb. eexists. split; [reflexivity | ].
  split; [simpl; tauto | ].
  intros band array Hin.
  assert (Hw : In (WriteArray band array) (filter is_write cb)).
  { apply filter_In. split; [ | reflexivity].
    simpl in Hin.
    destruct Hin as [H | [H | [H | [H | Hin]]]]; try discriminate.
    apply in_app_or in Hin. destruct Hin as [Hin | Hin]; [exact Hin | ].
    destruct (String.eqb driver "GTiff"); simpl in Hin;
      [destruct Hin as [H | [H | []]]; discriminate | contradiction]. }
  rewrite Wb in Hw. apply in_map_iff in Hw.
  destruct Hw as [[k d] [E Hkd]]. injection E as _ <-.
  apply in_combine_r in Hkd.
  pose proof (proj1 (Forall_forall _ _) Hall d Hkd) as Hd.
  unfold written. cbn [snd].
  destruct transpose; [now apply transposed_shape | exact Hd].
Qed.

End GdalCreateEdges.

(** ** More concrete runs *)

Module MoreSamples.

Import Samples.
Local Open Scope float_scope.
Local Open Scope string_scope.
Local Open Scope list_scope.

(** Three lines of three, two and one soundings. *)
Definition three_lines : Fqpr.t float :=
  {| Fqpr.multibeam_files := ["line_a.all"; "line_b.all"; "line_c.all"];
     Fqpr.subset_variables_by_line name :=
       if String.eqb name "line_a.all"
       then [sounding 10 20 5; sounding 11 20 6; sounding 12 21 7]
       else if String.eqb name "line_b.all"
       then [sounding 12 20 5; sounding 11 21 6]
       else if String.eqb name "line_c.all"
       then [sounding 10 21 6]
       else [] |}.

(** Two lines without a sounding. *)
Definition silent_lines : Fqpr.t float :=
  {| Fqpr.multibeam_files := ["line_a.all"; "line_b.all"];
     Fqpr.subset_variables_by_line name := [] |}.

(** A single line. *)
Definition one_line : Fqpr.t float :=
  {| Fqpr.multibeam_files := ["line_a.all"];
     Fqpr.subset_variables_by_line name :=
       if String.eqb name "line_a.all"
       then [sounding 10 20 5; sounding 11 20 6]
       else [] |}.

(** A record without any line. *)
Definition no_lines : Fqpr.t float :=
  {| Fqpr.multibeam_files := [];
     Fqpr.subset_variables_by_line name := [] |}.

(** The object [PatchTest(fq, azimuth=90)] right after construction. *)
Definition fresh_of (fq : Fqpr.t float) : PatchTest float :=
  {| fqpr := Some fq; azimuth := Some 90;
     initial_parameters := _default_parameters;
     multibeam_files := None; multibeam_indexes := None; points := None;
     min_x := None; min_y := None; grid := None;
     a_matrix := None; b_matrix := None; result := None |}.

(** An object with a result of six rows. *)
Definition solved : PatchTest float :=
  set_result [[1; 2]; [3; 4]; [5; 6]; [7; 8]; [9; 10]; [11; 12]]
    (gridded square_grid).

(** A stand-in for pyproj and osgeo in the concrete runs: a CRS is its WKT
    text, a spatial reference the text it imported. *)
#[export] Instance text_crs : Osgeo string string := {|
  version_info_major := 3;
  from_epsg code := ("EPSG:" ++ format_int code)%string;
  to_wkt crs := crs;
  to_wkt1_gdal crs := crs;
  SpatialReference := "";
  ImportFromWkt _ wkt := wkt;
  ExportToWkt srs := srs
|}.

(** Two bands over a raster of two columns and three rows. *)
Definition two_bands : list (list (list float)) :=
  [[[1; 2; 3]; [4; 5; 6]]; [[7; 8; 9]; [10; 11; 12]]].

End MoreSamples.

Section MoreConcreteRuns.

Import Samples MoreSamples.

Local Open Scope string_scope.
Local Open Scope list_scope.
Local Open Scope float_scope.

Lemma rotation_about_the_pivot_witness :
  exists self' mx my pts,
    _generate_rotated_points fresh [] = Ok (self', [])
    /\ Np.min (map (@sx float) (buffer two_lines (Fqpr.multibeam_files two_lines))) = Ok mx
    /\ Np.min (map (@sy float) (buffer two_lines (Fqpr.multibeam_files two_lines))) = Ok my
    /\ min_x self' = Some mx /\ min_y self' = Some my
    /\ points self' = Some pts
    /\ pts = map (rotated (theta 90) mx my)
               (buffer two_lines (Fqpr.multibeam_files two_lines))
    /\ map (@sz float) pts
       = map (@sz float) (buffer two_lines (Fqpr.multibeam_files two_lines))
    /\ length pts = length (buffer two_lines (Fqpr.multibeam_files two_lines)).
Proof.
  apply (@rotation_about_the_pivot float _ fresh [] two_lines 90); reflexivity.
Defined.

Lemma no_sounding_no_data_witness :
  exists self',
    run_patch (fresh_of silent_lines) []
    = Ok (self', [] ++ [Text ("Found no valid points for "
                                ++ repr_list (Fqpr.multibeam_files silent_lines))])
    /\ points self' = None /\ grid self' = None
    /\ a_matrix self' = None /\ b_matrix self' = None /\ result self' = None
    /\ multibeam_indexes self'
       = Some (map (fun f => (f, (0, 0)%nat)) (Fqpr.multibeam_files silent_lines)).
Proof.
  apply (@no_sounding_no_data float _ one_cell zero_solver (fresh_of silent_lines) []
           silent_lines 90); try reflexivity.
  - discriminate.
  - repeat constructor; simpl; intuition discriminate.
Defined.

(** The third range starts at 2, the number of soundings of the second
    line, where the third line's soundings start at 5 in the buffer. *)
Lemma ranges_start_at_previous_count_witness :
  exists self' out',
    _generate_rotated_points (fresh_of three_lines) [] = Ok (self', out')
    /\ multibeam_files self' = Some ["line_a.all"; "line_b.all"; "line_c.all"]
    /\ multibeam_indexes self'
       = Some [("line_a.all", (0, 3)%nat); ("line_b.all", (3, 5)%nat);
               ("line_c.all", (2, 3)%nat)]
    /\ keys (recorded_ranges three_lines (Fqpr.multibeam_files three_lines) 0)
       = ["line_a.all"; "line_b.all"; "line_c.all"].
Proof.
  apply (@ranges_start_at_previous_count float _ (fresh_of three_lines) []
           three_lines 90); try reflexivity.
  - discriminate.
  - repeat constructor; simpl; intuition discriminate.
Defined.

Lemma no_line_raises_witness :
  (_generate_rotated_points (fresh_of no_lines) [] = Raise AttributeError
   /\ run_patch (fresh_of no_lines) [] = Raise AttributeError).
Proof.
  apply (proj1 (@no_line_raises float _ one_cell zero_solver (fresh_of no_lines) [])
           no_lines 90); reflexivity.
Defined.

Lemma single_line_raises_witness :
  (exists self2 g,
      bind (_generate_rotated_points (fresh_of one_line)) _grid [] = Ok (self2, [])
      /\ grid self2 = Some g)
  /\ run_patch (fresh_of one_line) [] = Raise IndexError.
Proof.
  apply (@single_line_raises float _ one_cell zero_solver (fresh_of one_line) []
           one_line 90 "line_a.all"); reflexivity.
Defined.

Lemma two_lines_gridded_by_line_witness :
  exists self2 mx my,
    bind (_generate_rotated_points fresh) _grid [] = Ok (self2, [])
    /\ min_x self2 = Some mx /\ min_y self2 = Some my
    /\ grid self2
       = Some (grid_points
                 (add_points
                    (add_points create_grid
                       (map (rotated (theta 90) mx my)
                          (Fqpr.subset_variables_by_line two_lines "line_a.all"))
                       "line_a.all" ["line_a.all"])
                    (map (rotated (theta 90) mx my)
                       (Fqpr.subset_variables_by_line two_lines "line_b.all"))
                    "line_b.all" ["line_b.all"])).
Proof.
  apply (@two_lines_gridded_by_line float _ one_cell fresh [] two_lines 90
           "line_a.all" "line_b.all"); first [reflexivity | discriminate].
Defined.

Lemma normal_equations_shape_witness :
  exists a b,
    _build_patch_test_values (gridded square_grid) []
    = Ok (set_matrices a b (gridded square_grid), [])
    /\ length a = 6%nat /\ Forall (fun r => length r = 6%nat) a
    /\ length b = 6%nat /\ Forall (fun r => length r = 2%nat) b.
Proof.
  apply (@normal_equations_shape float _ (gridded square_grid) [] square_grid
           [("line_a.all", (0, 3)%nat); ("line_b.all", (3, 5)%nat)]
           "line_a.all" "line_b.all" []
           [[0.5; 1.5]; [0.5; 1.5]] [[0.5; 0.5]; [1.5; 1.5]]);
    reflexivity.
Defined.


Lemma display_rows_witness :
  display_results solved []
  = Ok (solved,
        [] ++ [Text "Patch test results";
               Text ("Lines: " ++ repr_list (Fqpr.multibeam_files two_lines));
               Values "roll: " [1; 2]; Values "pitch: " [3; 4];
               Values "heading: " [5; 6]; Values "x_translation: " [7; 8];
               Values "y_translation: " [9; 10];
               Values "horizontal scale factor: " [11; 12]]).
Proof.
  apply (proj1 (@display_rows float solved [] two_lines
                  [[1; 2]; [3; 4]; [5; 6]; [7; 8]; [9; 10]; [11; 12]]
                  eq_refl eq_refl) [1; 2] [3; 4] [5; 6] [7; 8] [9; 10] [11; 12] []).
  reflexivity.
Defined.

Lemma line_order_swaps_columns_witness :
  exists valid_index a_matrix l_one_matrix,
    valid_overlap (Grid.layers square_grid "line_a.all")
      (Grid.layers square_grid "line_b.all") = Ok valid_index
    /\ valid_overlap (Grid.layers square_grid "line_b.all")
         (Grid.layers square_grid "line_a.all") = Ok valid_index
    /\ patch_test_matrices square_grid
         (Grid.layers square_grid "depth") (Grid.layers square_grid "x_slope")
         (Grid.layers square_grid "y_slope") (Grid.layers square_grid "line_a.all")
         (Grid.layers square_grid "line_b.all") valid_index
       = Ok (a_matrix, l_one_matrix)
    /\ patch_test_matrices square_grid
         (Grid.layers square_grid "depth") (Grid.layers square_grid "x_slope")
         (Grid.layers square_grid "y_slope") (Grid.layers square_grid "line_b.all")
         (Grid.layers square_grid "line_a.all") valid_index
       = Ok (a_matrix, map (@rev float) l_one_matrix).
Proof.
  apply (@line_order_swaps_columns float _ square_grid
           (Grid.layers square_grid "depth") (Grid.layers square_grid "x_slope")
           (Grid.layers square_grid "y_slope") (Grid.layers square_grid "line_a.all")
           (Grid.layers square_grid "line_b.all")
           [[0.5; 1.5]; [0.5; 1.5]] [[0.5; 0.5]; [1.5; 1.5]]);
    reflexivity.
Defined.

(** The example of the docstring. *)
Lemma version_of_single_digits_witness :
  return_gdal_version "3000400" = Ok "3.0.4".
Proof.
  exact (@version_of_single_digits digits_only "3" "0" "4" "0" "" eq_refl eq_refl eq_refl).
Defined.

Lemma short_version_raises_witness :
  return_gdal_version "300040" = Raise IndexError.
Proof.
  apply (@short_version_raises digits_only "300040"); [reflexivity | simpl; lia].
Defined.

(** The version string 3100000 is read as major 31. *)
Lemma version_numbers_of_digits_witness :
  gdal_version_numbers "3100000" = Ok (31, 0, 0)%Z
  /\ return_gdal_version "3100000" = Ok "31.0.0"
  /\ (0 <= 31 <= 99)%Z /\ (0 <= 0 <= 99)%Z /\ (0 <= 0 <= 99)%Z.
Proof.
  exact (@version_numbers_of_digits digits_only "3" "1" "0" "0" "0" "0" "0" ""
           eq_refl eq_refl eq_refl eq_refl eq_refl eq_refl eq_refl).
Defined.

Lemma nodata_per_driver_witness :
  exists calls,
    gdal_create "out.tif" two_bands [0; 1; 0; 0; 0; -1] (inr 26919%Z) 1000000
      ["depth"; "uncertainty"] "GTiff" true [] = (calls, Ok tt)
    /\ (String.eqb "GTiff" "GTiff" = true ->
        filter is_nodata calls = [SetNoDataValue 1 1000000]
        /\ exists before, calls = before ++ [SetNoDataValue 1 1000000])
    /\ (String.eqb "GTiff" "GTiff" = false ->
        filter is_nodata calls
        = map (fun k => SetNoDataValue (k + 1) 1000000) (seq 0 (length two_bands))).
Proof.
  apply (@nodata_per_driver float string string text_crs "out.tif" two_bands
           [0; 1; 0; 0; 0; -1] (inr 26919%Z) 1000000 ["depth"; "uncertainty"]
           "GTiff" true []).
  - discriminate.
  - right. simpl. lia.
Defined.

Lemma bands_written_in_order_witness :
  exists calls,
    gdal_create "out.bag" two_bands [0; 1; 0; 0; 0; -1] (inr 26919%Z) 1000000
      ["depth"; "uncertainty"; "spare"] "BAG" true []
    = (GetDriverByName "BAG"
         :: Create "out.bag" 2 3 2 []
         :: SetGeoTransform [0; 1; 0; 0; 0; -1]
         :: SetProjection "EPSG:26919"
         :: calls,
       Ok tt)
    /\ filter is_write calls
       = [WriteArray 1 [[1; 4]; [2; 5]; [3; 6]];
          WriteArray 2 [[7; 10]; [8; 11]; [9; 12]]]
    /\ filter is_description calls
       = [SetDescription 1 "depth"; SetDescription 2 "uncertainty"].
Proof.
  apply (@bands_written_in_order float string string text_crs "out.bag" two_bands
           [0; 1; 0; 0; 0; -1] (inr 26919%Z) 1000000
           ["depth"; "uncertainty"; "spare"] "BAG" true []
           [[1; 2; 3]; [4; 5; 6]] [[[7; 8; 9]; [10; 11; 12]]]).
  - reflexivity.
  - right. simpl. lia.
Defined.

Lemma create_raises_witness :
  exists calls,
    gdal_create "out.tif" two_bands [0; 1; 0; 0; 0; -1] (inr 26919%Z) 1000000
      ["depth"] "GTiff" true [] = (calls, Raise IndexError)
    /\ In (Create "out.tif" 2 3 2 []) calls
    /\ filter is_write calls = [WriteArray 1 [[1; 4]; [2; 5]; [3; 6]]]
    /\ (String.eqb "GTiff" "GTiff" = true -> filter is_nodata calls = []).
Proof.
  apply (proj2 (@create_raises float string string text_crs "out.tif" two_bands
                  [0; 1; 0; 0; 0; -1] (inr 26919%Z) 1000000 ["depth"] "GTiff" true [])).
  - discriminate.
  - simpl. lia.
Defined.

Lemma written_arrays_shape_witness :
  exists calls,
    gdal_create "out.tif" two_bands [0; 1; 0; 0; 0; -1] (inr 26919%Z) 1000000
      [] "GTiff" true [] = (calls, Ok tt)
    /\ In (Create "out.tif" 2 3 (length two_bands) []) calls
    /\ forall band array,
        In (WriteArray band array) calls -> has_shape 3 2 array.
Proof.
  apply (@written_arrays_shape float string string text_crs "out.tif" two_bands
           [0; 1; 0; 0; 0; -1] (inr 26919%Z) 1000000 [] "GTiff" true [] 2 3).
  - discriminate.
  - lia.
  - lia.
  - repeat constructor.
  - now left.
Defined.

End MoreConcreteRuns.

(** ** What a run prints and what it leaves set *)

Section RunInvariants.

Context {F : Type} {FF : Float F} {BG : Bathygrid F} {LA : Linalg F}.

Local Open Scope string_scope.
Local Open Scope list_scope.

Ltac stage_cases H :=
  unfold bind, lift, ret, raise, print in H;
  repeat match type of H with
         | context [match ?x with _ => _ end] =>
             let E := fresh "E" in destruct x eqn:E
         end;
  try discriminate H;
  injection H as <- <-.

(** An attribute that was set stays set. *)
Definition stays_set {A} (before after : option A) : Prop :=
  before <> None -> after <> None.

(** The configuration is unchanged and no attribute was cleared. *)
Definition nothing_cleared (self self' : PatchTest F) : Prop :=
  fqpr self' = fqpr self /\ azimuth self' = azimuth self
  /\ initial_parameters self' = initial_parameters self
  /\ stays_set (multibeam_files self) (multibeam_files self')
  /\ stays_set (multibeam_indexes self) (multibeam_indexes self')
  /\ stays_set (points self) (points self')
  /\ stays_set (min_x self) (min_x self')
  /\ stays_set (min_y self) (min_y self')
  /\ stays_set (grid self) (grid self')
  /\ stays_set (a_matrix self) (a_matrix self')
  /\ stays_set (b_matrix self) (b_matrix self')
  /\ stays_set (result self) (result self').

Lemma nothing_cleared_trans (s1 s2 s3 : PatchTest F) :
  nothing_cleared s1 s2 -> nothing_cleared s2 s3 -> nothing_cleared s1 s3.
Proof.
  unfold nothing_cleared, stays_set.
  intros (A1 & A2 & A3 & A4 & A5 & A6 & A7 & A8 & A9 & A10 & A11 & A12)
         (B1 & B2 & B3 & B4 & B5 & B6 & B7 & B8 & B9 & B10 & B11 & B12).
  repeat split; try congruence; auto.
Qed.

Ltac cleared :=
  unfold nothing_cleared, stays_set; cbn;
  repeat split; try reflexivity; try discriminate; auto.

Lemma rotate_clears_nothing (self self' : PatchTest F) (out out' : list (line F)) :
  _generate_rotated_points self out = Ok (self', out') -> nothing_cleared self self'.
Proof. intros H. unfold _generate_rotated_points in H. stage_cases H; cleared. Qed.

Lemma grid_clears_nothing (self self' : PatchTest F) (out out' : list (line F)) :
  _grid self out = Ok (self', out') -> nothing_cleared self self'.
Proof. intros H. unfold _grid in H. stage_cases H; cleared. Qed.

Lemma build_clears_nothing (self self' : PatchTest F) (out out' : list (line F)) :
  _build_patch_test_values self out = Ok (self', out') -> nothing_cleared self self'.
Proof. intros H. unfold _build_patch_test_values in H. stage_cases H; cleared. Qed.

Lemma solve_clears_nothing (self self' : PatchTest F) (out out' : list (line F)) :
  _compute_least_squares self out = Ok (self', out') -> nothing_cleared self self'.
Proof. intros H. unfold _compute_least_squares in H. stage_cases H; cleared. Qed.

(** X11.  A run that returns has not changed the record, the azimuth and
    the initial parameters, and has cleared nothing: every attribute that
    was set before the run, a result of an earlier run included, is still
    set after it. *)
Theorem run_clears_nothing (self self' : PatchTest F) (out out' : list (line F)) :
  run_patch self out = Ok (self', out') -> nothing_cleared self self'.
Proof.
  unfold run_patch, bind. intros H.
  destruct (_generate_rotated_points self out) as [[s1 o1] | e] eqn:E1; [ | discriminate].
  destruct (_grid s1 o1) as [[s2 o2] | e] eqn:E2; [ | discriminate].
  destruct (_build_patch_test_values s2 o2) as [[s3 o3] | e] eqn:E3; [ | discriminate].
  eapply nothing_cleared_trans; [eapply rotate_clears_nothing; eassumption | ].
  eapply nothing_cleared_trans; [eapply grid_clears_nothing; eassumption | ].
  eapply nothing_cleared_trans; [eapply build_clears_nothing; eassumption | ].
  eapply solve_clears_nothing; eassumption.
Qed.

End RunInvariants.

Section RunOutput.

Context {F : Type} {FF : Float F} {BG : Bathygrid F} {LA : Linalg F}.

Local Open Scope string_scope.
Local Open Scope list_scope.

Ltac stage_cases H :=
  unfold bind, lift, ret, raise, print in H;
  repeat match type of H with
         | context [match ?x with _ => _ end] =>
             let E := fresh "E" in destruct x eqn:E
         end;
  try discriminate H;
  injection H as <- <-.

Ltac inner_cases :=
  repeat match goal with
         | E : match ?x with _ => _ end = _ |- _ =>
             destruct x; [injection E as ? ?; subst | discriminate E]
         end.

Lemma rotate_prints (self self' : PatchTest F) (out out' : list (line F)) :
  _generate_rotated_points self out = Ok (self', out') ->
  out' = out
  \/ exists files,
       out' = out ++ [Text ("Found no valid points for " ++ repr_list files)]
       /\ points self' = points self.
Proof.
  intros H. unfold _generate_rotated_points in H.
  stage_cases H; inner_cases;
    first [now left | right; eexists; split; reflexivity].
Qed.

Lemma grid_prints (self self' : PatchTest F) (out out' : list (line F)) :
  _grid self out = Ok (self', out') ->
  out' = out /\ a_matrix self' = a_matrix self /\ result self' = result self.
Proof. intros H. unfold _grid in H. stage_cases H; inner_cases; repeat split. Qed.

Lemma build_prints (self self' : PatchTest F) (out out' : list (line F)) :
  _build_patch_test_values self out = Ok (self', out') ->
  out' = out
  \/ exists files,
       out' = out ++ [Text ("No valid overlap found for lines: " ++ repr_list files)]
       /\ self' = self.
Proof.
  intros H. unfold _build_patch_test_values in H.
  stage_cases H; inner_cases;
    first [now left | right; eexists; split; reflexivity].
Qed.

Lemma solve_prints (self self' : PatchTest F) (out out' : list (line F)) :
  _compute_least_squares self out = Ok (self', out') -> out' = out.
Proof.
  intros H. unfold _compute_least_squares in H. stage_cases H; inner_cases; reflexivity.
Qed.

(** X12.  A run on an object without points, grid and normal matrix that
    returns has printed nothing, or the no-data line alone, or the
    no-overlap line alone; when it has printed a line it has left [result]
    as it was. *)
Theorem run_prints_one_line_at_most (self self' : PatchTest F)
    (out out' : list (line F)) :
  points self = None -> grid self = None -> a_matrix self = None ->
  run_patch self out = Ok (self', out') ->
  out' = out
  \/ (exists files,
        out' = out ++ [Text ("Found no valid points for " ++ repr_list files)]
        /\ result self' = result self /\ grid self' = None)
  \/ (exists files,
        out' = out ++ [Text ("No valid overlap found for lines: " ++ repr_list files)]
        /\ result self' = result self).
Proof.
  intros Hp Hg Ha. unfold run_patch, bind. intros H.
  destruct (_generate_rotated_points self out) as [[s1 o1] | e] eqn:E1; [ | discriminate].
  destruct (rotate_keeps _ _ E1) as (K1g & K1a & _ & K1r).
  destruct (rotate_prints _ _ E1) as [-> | (files & -> & P1)].
  - destruct (_grid s1 out) as [[s2 o2] | e] eqn:E2; [ | discriminate].
    destruct (grid_prints _ _ E2) as (-> & K2a & K2r).
    destruct (_build_patch_test_values s2 out) as [[s3 o3] | e] eqn:E3; [ | discriminate].
    destruct (build_prints _ _ E3) as [-> | (files & -> & ->)].
    + left. exact (solve_prints _ _ H).
    + right. right. exists files.
      rewrite solve_guard in H by (left; congruence).
      injection H as <- <-. split; [reflexivity | congruence].
  - right. left. exists files.
    rewrite grid_guard in H by (left; congruence).
    rewrite build_guard in H by congruence.
    rewrite solve_guard in H by (left; congruence).
    injection H as <- <-. repeat split; congruence.
Qed.

End RunOutput.

Section InvariantRuns.

Import Samples MoreSamples.

Local Open Scope string_scope.
Local Open Scope list_scope.
Local Open Scope float_scope.

(** The object after the run without soundings. *)
Definition after_silent_run (self : PatchTest float) : PatchTest float :=
  set_lines ["line_a.all"; "line_b.all"]
    [("line_a.all", (0, 0)%nat); ("line_b.all", (0, 0)%nat)] self.

(** The run without soundings, from an object that holds an earlier
    result. *)
Lemma run_clears_nothing_witness :
  run_patch (set_result [[1; 2]] (fresh_of silent_lines)) []
  = Ok (after_silent_run (set_result [[1; 2]] (fresh_of silent_lines)),
        [Text "Found no valid points for ['line_a.all', 'line_b.all']"])
  /\ nothing_cleared (set_result [[1; 2]] (fresh_of silent_lines))
       (after_silent_run (set_result [[1; 2]] (fresh_of silent_lines))).
Proof.
  split; [lazy; reflexivity | ].
  apply (@run_clears_nothing float _ one_cell zero_solver
           (set_result [[1; 2]] (fresh_of silent_lines))
           (after_silent_run (set_result [[1; 2]] (fresh_of silent_lines)))
           [] [Text "Found no valid points for ['line_a.all', 'line_b.all']"]).
  lazy. reflexivity.
Defined.

Lemma run_prints_one_line_at_most_witness :
  [@Text float "Found no valid points for ['line_a.all', 'line_b.all']"] = []
  \/ (exists files,
        [@Text float "Found no valid points for ['line_a.all', 'line_b.all']"]
        = [] ++ [Text ("Found no valid points for " ++ repr_list files)]
        /\ result (after_silent_run (fresh_of silent_lines))
           = result (fresh_of silent_lines)
        /\ grid (after_silent_run (fresh_of silent_lines)) = None)
  \/ (exists files,
        [@Text float "Found no valid points for ['line_a.all', 'line_b.all']"]
        = [] ++ [Text ("No valid overlap found for lines: " ++ repr_list files)]
        /\ result (after_silent_run (fresh_of silent_lines))
           = result (fresh_of silent_lines)).
Proof.
  apply (@run_prints_one_line_at_most float _ one_cell zero_solver
           (fresh_of silent_lines) (after_silent_run (fresh_of silent_lines))
           [] [Text "Found no valid points for ['line_a.all', 'line_b.all']"]
           eq_refl eq_refl eq_refl).
  lazy. reflexivity.
Defined.

End InvariantRuns.
